(** * Ionic CLI: the serve command and the project-name check

    A shallow embedding of
      - packages/@ionic/cli-utils/src/commands/serve.ts
          ([serve], [cliOptionsToServeOptions]) and
      - packages/@ionic/cli-utils/src/lib/start.ts ([isProjectNameValid]),
    followed by the properties proved about them.

    Conventions.
      - A command-line option value is a [CommandLineInput]: the TypeScript
        union  string | boolean | null | undefined | string[].
      - The option object is a finite map from option names to values; reading
        a key that is not there yields [VUndefined], as in JavaScript.
      - JavaScript numbers that stand for ports are integers ([Z]); their
        conversion to a string is the decimal one ([pretty]).
      - An [async] function is a computation in the monad [Async]: it logs the
        calls it makes to its collaborators, in order, and ends with either a
        thrown exception or a value. *)

From Stdlib Require Import ZArith Ascii Sorted.
From stdpp Require Import base option list strings gmap pretty.

Local Open Scope Z_scope.

(* ===================================================================== *)
(** ** JavaScript values found in a [CommandLineOptions] object *)
(* ===================================================================== *)

Inductive CommandLineInput :=
| VUndefined
| VNull
| VBool (b : bool)
| VStr (s : string)
| VArr (items : list string).

(** One line feed, the [\n] of the source's string literals. *)
Definition LF : string := String (ascii_of_nat 10) "".

(** [Array.prototype.join]. *)
Fixpoint join (sep : string) (l : list string) : string :=
  match l with
  | [] => ""
  | [x] => x
  | x :: rest => x +:+ sep +:+ join sep rest
  end.

(** The truthiness test of [v ? a : b] and of [if (v)]. *)
Definition truthy (v : CommandLineInput) : bool :=
  match v with
  | VUndefined | VNull => false
  | VBool b => b
  | VStr s => negb (bool_decide (s = ""))
  | VArr _ => true
  end.

(** [typeof v]. *)
Definition typeof (v : CommandLineInput) : string :=
  match v with
  | VUndefined => "undefined"
  | VNull => "object"
  | VBool _ => "boolean"
  | VStr _ => "string"
  | VArr _ => "object"
  end.

(** [String(v)]. *)
Definition js_String (v : CommandLineInput) : string :=
  match v with
  | VUndefined => "undefined"
  | VNull => "null"
  | VBool true => "true"
  | VBool false => "false"
  | VStr s => s
  | VArr items => join "," items
  end.

(** [Boolean(v)]. *)
Definition js_Boolean (v : CommandLineInput) : bool := truthy v.

(** [options[key]]: a missing key reads as [undefined]. *)
Definition get (options : gmap string CommandLineInput) (key : string)
  : CommandLineInput :=
  default VUndefined (options !! key).

(* ===================================================================== *)
(** ** [str2num], imported from @ionic/cli-framework/utils/string *)
(* ===================================================================== *)

(** Modelled from the spec: the digits of "a base-10 integer", read from left
    to right; anything that is not a digit is a parse failure. *)
Fixpoint parse_digits (s : string) (acc : Z) : option Z :=
  match s with
  | EmptyString => Some acc
  | String c rest =>
      match Ascii.is_nat c with
      | Some d => parse_digits rest (10 * acc + Z.of_nat d)
      | None => None
      end
  end.

(** Modelled from the spec: "parse given value as a base-10 integer", an
    optional minus sign and then one digit or more. *)
Definition parse_int10 (s : string) : option Z :=
  match s with
  | EmptyString => None
  | String "-"%char EmptyString => None
  | String "-"%char rest => Z.opp <$> parse_digits rest 0
  | _ => parse_digits s 0
  end.

(** Modelled from the spec: [str2num] lives in the package
    @ionic/cli-framework, whose source is not part of these files.  The
    specification (section 4.1) says of the three port options: "parse given
    value as a base-10 integer; on absence or parse failure, use the named
    default constant for that role". *)
Definition str2num (value : CommandLineInput) (defaultValue : Z) : Z :=
  match value with
  | VStr s => default defaultValue (parse_int10 s)
  | _ => defaultValue
  end.

(* ===================================================================== *)
(** ** Data of the serve command *)
(* ===================================================================== *)

(** The constants imported from ../lib/serve. *)
Record ServeConstants := {
  BIND_ALL_ADDRESS : string;
  DEFAULT_DEV_LOGGER_PORT : Z;
  DEFAULT_LIVERELOAD_PORT : Z;
  DEFAULT_SERVER_PORT : Z;
  IONIC_LAB_URL : string;
}.

(** The object literal returned by [cliOptionsToServeOptions]. *)
Record ServeOptions := {
  address : string;
  port : Z;
  livereloadPort : Z;
  notificationPort : Z;
  consolelogs : bool;
  serverlogs : bool;
  livereload : bool;
  proxy : bool;
  lab : bool;
  open : bool;
  browser : option string;
  browserOption : option string;
  basicAuth : option (string * string);
  env : option string;
  devapp : bool;
  externalAddressRequired : bool;
  iscordovaserve : bool;
}.

(* ===================================================================== *)
(** ** lib/start.ts *)
(* ===================================================================== *)

(** [return name !== '.';] *)
Definition isProjectNameValid (name : string) : bool :=
  negb (bool_decide (name = ".")).

(* ===================================================================== *)
(** ** commands/serve.ts: option normalisation *)
(* ===================================================================== *)

Section Normalize.

Variable K : ServeConstants.

Definition cliOptionsToServeOptions (options : gmap string CommandLineInput)
  : ServeOptions :=
  let address :=
    if truthy (get options "address") then js_String (get options "address")
    else BIND_ALL_ADDRESS K in
  let port := str2num (get options "port") (DEFAULT_SERVER_PORT K) in
  let livereloadPort :=
    str2num (get options "livereload-port") (DEFAULT_LIVERELOAD_PORT K) in
  let notificationPort :=
    str2num (get options "dev-logger-port") (DEFAULT_DEV_LOGGER_PORT K) in
  {| address := address;
     port := port;
     livereloadPort := livereloadPort;
     notificationPort := notificationPort;
     consolelogs := if truthy (get options "consolelogs") then true else false;
     serverlogs := if truthy (get options "serverlogs") then true else false;
     livereload :=
       if bool_decide (typeof (get options "livereload") = "boolean")
       then js_Boolean (get options "livereload") else true;
     proxy :=
       if bool_decide (typeof (get options "proxy") = "boolean")
       then js_Boolean (get options "proxy") else true;
     lab := if truthy (get options "lab") then true else false;
     open := if truthy (get options "open") then true else false;
     browser :=
       if truthy (get options "browser")
       then Some (js_String (get options "browser")) else None;
     browserOption :=
       if truthy (get options "browseroption")
       then Some (js_String (get options "browseroption")) else None;
     basicAuth :=
       if truthy (get options "auth")
       then Some ("ionic", js_String (get options "auth")) else None;
     env :=
       if truthy (get options "env")
       then Some (js_String (get options "env")) else None;
     devapp :=
       if bool_decide (typeof (get options "devapp") = "undefined")
          || truthy (get options "devapp")
       then true else false;
     externalAddressRequired :=
       if truthy (get options "externalAddressRequired") then true else false;
     iscordovaserve :=
       if bool_decide (typeof (get options "iscordovaserve") = "boolean")
       then js_Boolean (get options "iscordovaserve") else false;
  |}.

End Normalize.

(** The value of a flag that is off unless its option is truthy. *)
Definition flag_default_false (v : CommandLineInput) : bool := truthy v.

(** The value of a flag that only an explicit boolean can change. *)
Definition flag_boolean_or (fallback : bool) (v : CommandLineInput) : bool :=
  match v with
  | VBool b => b
  | _ => fallback
  end.

(** The value of a flag that is on when its option is missing or truthy. *)
Definition flag_opt_out (v : CommandLineInput) : bool :=
  match v with
  | VUndefined => true
  | _ => truthy v
  end.

(** The nine boolean fields of a [ServeOptions], with the option each is read
    from and the rule that decides it. *)
Definition boolean_fields
  : list (string * (ServeOptions -> bool) * (CommandLineInput -> bool)) :=
  [ ("consolelogs", consolelogs, flag_default_false);
    ("serverlogs", serverlogs, flag_default_false);
    ("livereload", livereload, flag_boolean_or true);
    ("proxy", proxy, flag_boolean_or true);
    ("lab", lab, flag_default_false);
    ("open", open, flag_default_false);
    ("devapp", devapp, flag_opt_out);
    ("externalAddressRequired", externalAddressRequired, flag_default_false);
    ("iscordovaserve", iscordovaserve, flag_boolean_or false) ].

(* ===================================================================== *)
(** ** commands/serve.ts: the collaborators of [serve] *)
(* ===================================================================== *)

(** [ServeDetails]: what a backend reports once it listens. *)
Module ServeDetails.
Record t := mk {
  port : Z;
  externalAddresses : list string;
}.
End ServeDetails.

(** The fields of the loaded project file that [serve] reads. *)
Module Project.
Record t := mk {
  type : string;
  name : string;
}.
End Project.

(** Modelled from the spec: the [Publisher] class belongs to the package
    @ionic/discover, whose source is not part of these files.  Section 6
    describes it as [construct(family, instanceName, port)] with a mutable
    [path] field; [path] stays [None] until the caller assigns it. *)
Module Publisher.
Record t := mk {
  namespace : string;
  name : string;
  port : Z;
  path : option string;
}.
Definition new (namespace name : string) (port : Z) : t :=
  mk namespace name port None.
Definition set_path (service : t) (p : string) : t :=
  mk (namespace service) (name service) (port service) (Some p).
End Publisher.

(** The options handed to the ionic-angular backend:
    [{ platform, target: ..., ...serveOptions }]. *)
Record AngularServeOptions := {
  platform : option string;
  target : option string;
  base : ServeOptions;
}.

(** What a rejected promise or a [throw] carries. *)
Inductive Exception :=
| FatalException (message : string)
| Rejected (reason : string).

(** How an awaited call ends. *)
Definition Outcome (A : Type) : Type := Exception + A.

(** The calls [serve] makes to the outside, each with its arguments. *)
Inductive Event :=
| HooksFire (hook : string)
| ProjectLoad
| Ionic1Serve (options : ServeOptions)
| IonicAngularServe (options : AngularServeOptions)
| PublisherOn (service : Publisher.t) (event : string)
| PublisherStart (service : Publisher.t)
| LogOk (msg : string)
| Opn (url : string) (app : option string) (wait : bool).

(** The behaviour of everything [serve] awaits: the environment's hooks and
    project loader, the two backends, and the discovery service. *)
Record IonicEnvironment := {
  hooks_fire : string -> Outcome unit;
  project_load : Outcome Project.t;
  ionic1_serve : ServeOptions -> Outcome ServeDetails.t;
  ionic_angular_serve : AngularServeOptions -> Outcome ServeDetails.t;
  publisher_start : Publisher.t -> Outcome unit;
}.

(** *** The monad of an [async] function body *)

Definition Async (A : Type) : Type := list Event * Outcome A.

Definition ret {A} (a : A) : Async A := ([], inr a).

Definition throw {A} (e : Exception) : Async A := ([], inl e).

Definition bind {A B} (m : Async A) (k : A -> Async B) : Async B :=
  match m with
  | (tr, inl e) => (tr, inl e)
  | (tr, inr a) => let '(tr', r) := k a in (tr ++ tr', r)
  end.

(** [await f(args)]: the call is logged, its outcome decides what follows. *)
Definition await {A} (call : Event) (outcome : Outcome A) : Async A :=
  ([call], outcome).

(** A call that returns nothing the caller waits for. *)
Definition perform (call : Event) : Async unit := ([call], inr tt).

(** [try { body } catch (e) { handler }]. *)
Definition try_catch {A} (body : Async A) (handler : Exception -> Async A)
  : Async A :=
  match body with
  | (tr, inl e) => let '(tr', r) := handler e in (tr ++ tr', r)
  | (tr, inr a) => (tr, inr a)
  end.

Notation "'let!' x ':=' m 'in' k" := (bind m (fun x => k))
  (at level 10, x name, m at level 100, k at level 200).
Notation "'run' m 'then' k" := (bind m (fun _ => k))
  (at level 10, m at level 100, k at level 200).

Definition trace {A} (m : Async A) : list Event := fst m.
Definition result {A} (m : Async A) : Outcome A := snd m.

(** Is this call the start of a backend? *)
Definition is_backend_call (e : Event) : bool :=
  match e with
  | Ionic1Serve _ | IonicAngularServe _ => true
  | _ => false
  end.

Definition is_publisher_start (e : Event) : bool :=
  match e with
  | PublisherStart _ => true
  | _ => false
  end.

Definition is_opn (e : Event) : bool :=
  match e with
  | Opn _ _ _ => true
  | _ => false
  end.

(** [needle] occurs in [hay]. *)
Definition contains (needle hay : string) : Prop :=
  exists before after, hay = before +:+ needle +:+ after.

(* ===================================================================== *)
(** ** commands/serve.ts: [serve] *)
(* ===================================================================== *)

Section Serve.

Variable K : ServeConstants.

(** [chalk.bold]: the styling of the terminal library, which depends on the
    terminal and is not part of these files. *)
Variable bold : string -> string.

(** The message of the exception thrown for a project type without backend
    (lines 29-33). *)
Definition unsupported_type_message (type : string) : string :=
  "Cannot perform Ionic serve/watch for project type: " +:+ bold type +:+ "."
    +:+ LF +:+
  (if bool_decide (type = "custom")
   then "Since you're using the " +:+ bold "custom" +:+
        " project type, this command won't work. The Ionic CLI doesn't know how to serve custom projects."
        +:+ LF +:+ LF
   else "") +:+
  "If you'd like the CLI to try to detect your project type, you can unset the "
    +:+ bold "type" +:+ " attribute in " +:+ bold "ionic.config.json" +:+ "."
    +:+ LF.

(** [const localAddress = ...] (line 55). *)
Definition localAddress (serverDetails : ServeDetails.t) : string :=
  "http://localhost:" +:+ pretty (ServeDetails.port serverDetails).

(** [const fmtExternalAddress = ...] (line 56). *)
Definition fmtExternalAddress (serverDetails : ServeDetails.t)
  (address : string) : string :=
  "http://" +:+ address +:+ ":" +:+ pretty (ServeDetails.port serverDetails).

(** The argument of [env.log.ok] (lines 59-62). *)
Definition running_message (serverDetails : ServeDetails.t)
  (serveOptions : ServeOptions) : string :=
  "Development server running!" +:+ LF +:+
  "Local: " +:+ bold (localAddress serverDetails) +:+ LF +:+
  (if bool_decide (0 < length (ServeDetails.externalAddresses serverDetails))%nat
   then "External: " +:+
        join ", " (map (fun v => bold (fmtExternalAddress serverDetails v))
                       (ServeDetails.externalAddresses serverDetails))
        +:+ LF
   else "") +:+
  (match basicAuth serveOptions with
   | Some (user, password) =>
       "Basic Auth: " +:+ bold user +:+ " / " +:+ bold password
   | None => ""
   end).

(** [s ? a : b] for [s : string | undefined]: an absent or empty string is
    falsy. *)
Definition truthy_str (s : option string) : bool :=
  match s with
  | Some x => negb (bool_decide (x = ""))
  | None => false
  end.

(** [openOptions.join('')] (lines 68-74). *)
Definition open_url (serverDetails : ServeDetails.t)
  (serveOptions : ServeOptions) (platform : option string) : string :=
  let openOptions : list string :=
    [localAddress serverDetails]
      ++ (if lab serveOptions then [IONIC_LAB_URL K] else [])
      ++ (if truthy_str (browserOption serveOptions)
          then [default "" (browserOption serveOptions)] else [])
      ++ (if truthy_str platform
          then ["?ionicplatform="; default "" platform] else []) in
  join "" openOptions.

(** The choice of the backend (lines 18-34). *)
Definition start_backend (env : IonicEnvironment) (platform : option string)
  (serveOptions : ServeOptions) (project : Project.t) : Async ServeDetails.t :=
  if bool_decide (Project.type project = "ionic1") then
    await (Ionic1Serve serveOptions) (ionic1_serve env serveOptions)
  else if bool_decide (Project.type project = "ionic-angular") then
    let angularOptions :=
      {| platform := platform;
         target := if iscordovaserve serveOptions then Some "cordova" else None;
         base := serveOptions |} in
    await (IonicAngularServe angularOptions)
          (ionic_angular_serve env angularOptions)
  else
    throw (FatalException (unsupported_type_message (Project.type project))).

(** The DevApp announcement (lines 36-53). *)
Definition announce (env : IonicEnvironment) (project : Project.t)
  (serveOptions : ServeOptions) : Async unit :=
  let devAppActive :=
    negb (iscordovaserve serveOptions) && devapp serveOptions in
  let devAppServiceName :=
    Project.name project +:+ "@" +:+ pretty (port serveOptions) in
  if devAppActive then
    let service :=
      Publisher.new "devapp" devAppServiceName (port serveOptions) in
    let service := Publisher.set_path service "/?devapp=true" in
    run perform (PublisherOn service "error") then
    try_catch (await (PublisherStart service) (publisher_start env service))
              (fun _ => ret tt)
  else ret tt.

(** Opening the browser (lines 66-76). *)
Definition open_browser (project : Project.t) (serverDetails : ServeDetails.t)
  (serveOptions : ServeOptions) (platform : option string) : Async unit :=
  if negb (bool_decide (Project.type project = "ionic-angular")) then
    if open serveOptions then
      perform (Opn (open_url serverDetails serveOptions platform)
                   (browser serveOptions) false)
    else ret tt
  else ret tt.

Definition serve (env : IonicEnvironment) (inputs : list string)
  (options : gmap string CommandLineInput) : Async ServeDetails.t :=
  run await (HooksFire "watch:before") (hooks_fire env "watch:before") then
  let platform := head inputs in
  let serveOptions := cliOptionsToServeOptions K options in
  let! project := await ProjectLoad (project_load env) in
  let! serverDetails := start_backend env platform serveOptions project in
  run announce env project serveOptions then
  run perform (LogOk (running_message serverDetails serveOptions)) then
  run open_browser project serverDetails serveOptions platform then
  ret serverDetails.

(** The session reached a backend, and the backend resolved with
    [serverDetails]. *)
Definition backend_returns (env : IonicEnvironment) (inputs : list string)
  (options : gmap string CommandLineInput) (project : Project.t)
  (serverDetails : ServeDetails.t) : Prop :=
  hooks_fire env "watch:before" = inr tt /\
  project_load env = inr project /\
  result (start_backend env (head inputs)
            (cliOptionsToServeOptions K options) project) = inr serverDetails.

End Serve.

(** The Publisher object an event is about, if any. *)
Definition service_of (e : Event) : option Publisher.t :=
  match e with
  | PublisherOn service _ | PublisherStart service => Some service
  | _ => None
  end.

(** Values used to run the definitions on concrete inputs. *)
Definition example_constants : ServeConstants :=
  {| BIND_ALL_ADDRESS := "0.0.0.0";
     DEFAULT_DEV_LOGGER_PORT := 53703;
     DEFAULT_LIVERELOAD_PORT := 35729;
     DEFAULT_SERVER_PORT := 8100;
     IONIC_LAB_URL := "/ionic-lab" |}.

(** A terminal without styling: [chalk.bold] leaves the text as it is. *)
Definition plain (s : string) : string := s.

(** An environment whose project has the given type, whose backends listen on
    8100 with one external address, and whose discovery service fails to
    start. *)
Definition example_env (type : string) : IonicEnvironment :=
  {| hooks_fire := fun _ => inr tt;
     project_load := inr (Project.mk type "myApp");
     ionic1_serve := fun _ => inr (ServeDetails.mk 8100 ["192.168.1.5"]);
     ionic_angular_serve := fun _ => inr (ServeDetails.mk 8100 ["192.168.1.5"]);
     publisher_start := fun _ => inl (Rejected "EADDRINUSE") |}.

(* ===================================================================== *)
(** ** commands/serve.ts: names used to state further properties *)
(* ===================================================================== *)

(** The option names that [cliOptionsToServeOptions] reads. *)
Definition serve_option_names : list string :=
  [ "address"; "port"; "livereload-port"; "dev-logger-port"; "consolelogs";
    "serverlogs"; "livereload"; "proxy"; "lab"; "open"; "browser";
    "browseroption"; "auth"; "env"; "devapp"; "externalAddressRequired";
    "iscordovaserve" ].

(** The place of a call in the body of [serve], from top to bottom. *)
Definition phase (e : Event) : nat :=
  match e with
  | HooksFire _ => 0
  | ProjectLoad => 1
  | Ionic1Serve _ | IonicAngularServe _ => 2
  | PublisherOn _ _ => 3
  | PublisherStart _ => 4
  | LogOk _ => 5
  | Opn _ _ _ => 6
  end%nat.

Definition is_log (e : Event) : bool :=
  match e with
  | LogOk _ => true
  | _ => false
  end.

(* ===================================================================== *)
(** ** lib/start.ts: data *)
(* ===================================================================== *)

(** [StarterTemplateType], as the entries of [STARTER_TYPES] show it. *)
Module StarterTemplateType.
Record t := mk {
  id : string;
  url : string;
  baseArchive : string;
  globalDependencies : list string;
  localDependencies : list string;
}.
End StarterTemplateType.

(** [StarterTemplate], as the entries of [STARTER_TEMPLATES] show it. *)
Module StarterTemplate.
Record t := mk {
  name : string;
  type : string;
  description : string;
  url : string;
  archive : string;
}.
End StarterTemplate.

(** [STARTER_TYPES] (lines 135-150). *)
Definition STARTER_TYPES : list StarterTemplateType.t :=
  [ {| StarterTemplateType.id := "ionic-angular";
       StarterTemplateType.url := "https://github.com/ionic-team/ionic2-app-base";
       StarterTemplateType.baseArchive :=
         "https://github.com/ionic-team/ionic2-app-base/archive/<BRANCH_NAME>.tar.gz";
       StarterTemplateType.globalDependencies := [];
       StarterTemplateType.localDependencies := [] |};
    {| StarterTemplateType.id := "ionic1";
       StarterTemplateType.url := "https://github.com/ionic-team/ionic-app-base";
       StarterTemplateType.baseArchive :=
         "https://github.com/ionic-team/ionic-app-base/archive/<BRANCH_NAME>.tar.gz";
       StarterTemplateType.globalDependencies := [];
       StarterTemplateType.localDependencies := [] |} ].

(** A JSON value.  The document of a JSON file read by [fsReadJsonFile] is an
    object: a finite map from property names to such values. *)
Local Unset Elimination Schemes.
Inductive JsonValue :=
| JNull
| JBool (b : bool)
| JNum (n : Z)
| JStr (s : string)
| JArr (items : list JsonValue)
| JObj (fields : list (string * JsonValue)).
Local Set Elimination Schemes.

(** What the code of start.ts throws and catches.  The two constants that
    [fsReadJsonFile] rejects with are told apart by [===]; [Threw] stands
    for any other thrown value. *)
Inductive Thrown :=
| ERROR_FILE_NOT_FOUND
| ERROR_FILE_INVALID_JSON
| Error (message : string)
| RangeError (message : string)
| Threw (payload : string).

(** The file-system calls of start.ts, each with its arguments. *)
Inductive FsEvent :=
| FsReadDir (path : string)
| FsReadJsonFile (path : string)
| FsWriteJsonFile (path : string) (data : gmap string JsonValue)
    (encoding : string)
| FsUnlink (path : string).

(** How the file system answers the awaited calls. *)
Record FileSystem := {
  fsReadDir : string -> Thrown + list string;
  fsReadJsonFile : string -> Thrown + gmap string JsonValue;
  fsWriteJsonFile : string -> gmap string JsonValue -> Thrown + unit;
}.

(** *** The monad of the [async] functions of start.ts *)

Definition FsAsync (A : Type) : Type := list FsEvent * (Thrown + A).

Definition fs_ret {A} (a : A) : FsAsync A := ([], inr a).

Definition fs_throw {A} (e : Thrown) : FsAsync A := ([], inl e).

Definition fs_bind {A B} (m : FsAsync A) (k : A -> FsAsync B) : FsAsync B :=
  match m with
  | (tr, inl e) => (tr, inl e)
  | (tr, inr a) => let '(tr', r) := k a in (tr ++ tr', r)
  end.

Definition fs_await {A} (call : FsEvent) (outcome : Thrown + A) : FsAsync A :=
  ([call], outcome).

(** A call whose promise is not awaited. *)
Definition fs_perform (call : FsEvent) : FsAsync unit := ([call], inr tt).

Definition fs_try_catch {A} (body : FsAsync A) (handler : Thrown -> FsAsync A)
  : FsAsync A :=
  match body with
  | (tr, inl e) => let '(tr', r) := handler e in (tr ++ tr', r)
  | (tr, inr a) => (tr, inr a)
  end.

Notation "'let?' x ':=' m 'in' k" := (fs_bind m (fun x => k))
  (at level 10, x name, m at level 100, k at level 200).
Notation "'run?' m 'then' k" := (fs_bind m (fun _ => k))
  (at level 10, m at level 100, k at level 200).

Definition fs_trace {A} (m : FsAsync A) : list FsEvent := fst m.
Definition fs_result {A} (m : FsAsync A) : Thrown + A := snd m.

Definition is_write (e : FsEvent) : bool :=
  match e with
  | FsWriteJsonFile _ _ _ => true
  | _ => false
  end.

Definition is_unlink (e : FsEvent) : bool :=
  match e with
  | FsUnlink _ => true
  | _ => false
  end.

(* ===================================================================== *)
(** ** lib/start.ts: the functions *)
(* ===================================================================== *)

(** [l.indexOf(x)]: the first position of [x], or -1. *)
Fixpoint indexOf_from (l : list string) (x : string) (i : Z) : Z :=
  match l with
  | [] => -1
  | y :: rest => if bool_decide (y = x) then i else indexOf_from rest x (i + 1)
  end.

Definition indexOf (l : list string) (x : string) : Z := indexOf_from l x 0.

(** The [validFiles] of [isSafeToCreateProjectIn]. *)
Definition validFiles : list string :=
  [".DS_Store"; "Thumbs.db"; ".git"; ".gitignore"; ".idea"; "README.md";
   "LICENSE"].

Definition isSafeToCreateProjectIn (fs : FileSystem) (root : string)
  : FsAsync bool :=
  let? entries := fs_await (FsReadDir root) (fsReadDir fs root) in
  fs_ret (forallb (fun file => bool_decide (indexOf validFiles file >= 0))
                  entries).


(** [Array(n).join(sep)] for an integer [n]: a negative length is a
    [RangeError]; the [n] empty slots are joined as empty strings. *)
Definition Array_join (n : Z) (sep : string) : Thrown + string :=
  if bool_decide (n < 0) then inl (RangeError "Invalid array length")
  else inr (join sep (replicate (Z.to_nat n) "")).

(** [templateList.map(f)] with an [f] that may throw. *)
Fixpoint map_throwing {A B} (f : A -> Thrown + B) (l : list A)
  : Thrown + list B :=
  match l with
  | [] => inr []
  | x :: rest =>
      match f x with
      | inl e => inl e
      | inr y =>
          match map_throwing f rest with
          | inl e => inl e
          | inr ys => inr (y :: ys)
          end
      end
  end.

Section StarterText.

(** [chalk.green], [chalk.dim] and [chalk.bold]. *)
Variables green dim bold : string -> string.

(** The arrow function of [getStarterTemplateTextList] (lines 43-47);
    [name.length] is the number of characters of a name written in ASCII. *)
Definition starter_template_line (template : StarterTemplate.t)
  : Thrown + string :=
  let templateName := green (StarterTemplate.name template) in
  match Array_join (20 - Z.of_nat (String.length (StarterTemplate.name template)))
                   (dim ".") with
  | inl e => inl e
  | inr dots =>
      inr (templateName +:+ " " +:+ dots +:+ " " +:+
           bold (StarterTemplate.type template) +:+ " " +:+
           StarterTemplate.description template)
  end.

Definition getStarterTemplateTextList (templateList : list StarterTemplate.t)
  : Thrown + list string :=
  map_throwing starter_template_line templateList.

Definition getStarterTemplateText (templateList : list StarterTemplate.t)
  : Thrown + string :=
  let headerLine := bold "Ionic Starter templates" in
  match getStarterTemplateTextList templateList with
  | inl e => inl e
  | inr formattedTemplateList =>
      inr (LF +:+ "    " +:+ headerLine +:+ LF +:+ "      " +:+
           join (LF +:+ "      ") formattedTemplateList +:+ LF +:+ "  ")
  end.

End StarterText.

Section PackageJson.

(** [path.resolve] of Node, on two segments. *)
Variable path_resolve : string -> string -> string.

(** [merge] of lodash. *)
Variable merge :
  gmap string JsonValue -> gmap string JsonValue -> gmap string JsonValue.

Definition patchPackageJsonForCli (fs : FileSystem) (env : IonicEnvironment)
  (appName : string) (starterType : StarterTemplateType.t)
  (pathToProject : string) : FsAsync unit :=
  let patchPackagePath := path_resolve pathToProject "patch.package.json" in
  let packagePath := path_resolve pathToProject "package.json" in
  let? pkg :=
    fs_try_catch
      (fs_await (FsReadJsonFile packagePath) (fsReadJsonFile fs packagePath))
      (fun e =>
         match e with
         | ERROR_FILE_NOT_FOUND =>
             fs_throw (Error (packagePath +:+ " is not valid JSON."))
         | ERROR_FILE_INVALID_JSON =>
             fs_throw (Error (packagePath +:+ " is not valid JSON."))
         | _ => fs_throw e
         end) in
  fs_try_catch
    (let? patch :=
       fs_await (FsReadJsonFile patchPackagePath)
                (fsReadJsonFile fs patchPackagePath) in
     let finalPackage := merge pkg patch in
     run? fs_await (FsWriteJsonFile packagePath finalPackage "utf8")
                   (fsWriteJsonFile fs packagePath finalPackage) then
     fs_perform (FsUnlink patchPackagePath))
    (fun e =>
       match e with
       | ERROR_FILE_NOT_FOUND => fs_ret tt
       | ERROR_FILE_INVALID_JSON =>
           fs_throw (Error (patchPackagePath +:+ " is not valid JSON."))
       | _ => fs_throw e
       end).

Definition updatePackageJsonForCli (fs : FileSystem) (env : IonicEnvironment)
  (appName : string) (starterType : StarterTemplateType.t)
  (pathToProject : string) : FsAsync unit :=
  let filePath := path_resolve pathToProject "package.json" in
  fs_try_catch
    (let? jsonStructure :=
       fs_await (FsReadJsonFile filePath) (fsReadJsonFile fs filePath) in
     let jsonStructure := <["name" := JStr appName]> jsonStructure in
     let jsonStructure := <["version" := JStr "0.0.1"]> jsonStructure in
     let jsonStructure :=
       <["description" := JStr "An Ionic project"]> jsonStructure in
     fs_await (FsWriteJsonFile filePath jsonStructure "utf8")
              (fsWriteJsonFile fs filePath jsonStructure))
    (fun e =>
       match e with
       | ERROR_FILE_NOT_FOUND => fs_throw (Error (filePath +:+ " not found"))
       | ERROR_FILE_INVALID_JSON =>
           fs_throw (Error (filePath +:+ " is not valid JSON."))
       | _ => fs_throw e
       end).

Definition createProjectConfig (fs : FileSystem) (appName : string)
  (starterType : StarterTemplateType.t) (pathToProject : string)
  : FsAsync unit :=
  let filePath := path_resolve pathToProject "ionic.config.json" in
  let jsonStructure : gmap string JsonValue :=
    {[ "name" := JStr appName;
       "app_id" := JStr "";
       "type" := JStr (StarterTemplateType.id starterType) ]} in
  fs_await (FsWriteJsonFile filePath jsonStructure "utf8")
           (fsWriteJsonFile fs filePath jsonStructure).

End PackageJson.

(** Values used to run the functions of start.ts on concrete inputs. *)
Definition example_resolve (dir file : string) : string :=
  dir +:+ "/" +:+ file.

(** A merge that lets the patch win key by key. *)
Definition example_merge (pkg patch : gmap string JsonValue)
  : gmap string JsonValue := patch ∪ pkg.

(** A project directory with a package.json and no patch file. *)
Definition example_fs : FileSystem :=
  {| fsReadDir := fun _ => inr [".git"; "README.md"];
     fsReadJsonFile := fun path =>
       if bool_decide (path = "/app/package.json")
       then inr {[ "name" := JStr "base"; "license" := JStr "MIT" ]}
       else inl ERROR_FILE_NOT_FOUND;
     fsWriteJsonFile := fun _ _ => inr tt |}.

(** The same directory with a patch file beside package.json. *)
Definition example_fs_patch : FileSystem :=
  {| fsReadDir := fun _ => inr [".git"; "package.json"];
     fsReadJsonFile := fun path =>
       if bool_decide (path = "/app/package.json")
       then inr {[ "name" := JStr "base"; "license" := JStr "MIT" ]}
       else inr {[ "private" := JBool true ]};
     fsWriteJsonFile := fun _ _ => inr tt |}.

Definition example_templates : list StarterTemplate.t :=
  [ StarterTemplate.mk "tabs" "ionic-angular"
      "A starting project with a simple tabbed interface"
      "https://github.com/ionic-team/ionic2-starter-tabs"
      "https://github.com/ionic-team/ionic2-starter-tabs/archive/<BRANCH_NAME>.tar.gz";
    StarterTemplate.mk "blank" "ionic1"
      "A blank starter project for Ionic"
      "https://github.com/ionic-team/ionic-starter-blank"
      "https://github.com/ionic-team/ionic-starter-blank/archive/<BRANCH_NAME>.tar.gz" ].

(** An environment whose hook rejects. *)
Definition example_env_failing_hook : IonicEnvironment :=
  {| hooks_fire := fun _ => inl (Rejected "hook failed");
     project_load := inr (Project.mk "ionic1" "myApp");
     ionic1_serve := fun _ => inr (ServeDetails.mk 8100 []);
     ionic_angular_serve := fun _ => inr (ServeDetails.mk 8100 []);
     publisher_start := fun _ => inr tt |}.

(** An ionic1 project whose backend cannot listen. *)
Definition example_env_failing_backend : IonicEnvironment :=
  {| hooks_fire := fun _ => inr tt;
     project_load := inr (Project.mk "ionic1" "myApp");
     ionic1_serve := fun _ => inl (Rejected "EADDRINUSE");
     ionic_angular_serve := fun _ => inl (Rejected "EADDRINUSE");
     publisher_start := fun _ => inr tt |}.

(** A directory without any file. *)
Definition example_fs_missing : FileSystem :=
  {| fsReadDir := fun _ => inr [];
     fsReadJsonFile := fun _ => inl ERROR_FILE_NOT_FOUND;
     fsWriteJsonFile := fun _ _ => inr tt |}.

(** A starter type as [STARTER_TYPES] lists it. *)
Definition example_starter_type : StarterTemplateType.t :=
  {| StarterTemplateType.id := "ionic1";
     StarterTemplateType.url := "https://github.com/ionic-team/ionic-app-base";
     StarterTemplateType.baseArchive :=
       "https://github.com/ionic-team/ionic-app-base/archive/<BRANCH_NAME>.tar.gz";
     StarterTemplateType.globalDependencies := [];
     StarterTemplateType.localDependencies := [] |}.

(* ===================================================================== *)
(** ** Proof tools *)
(* ===================================================================== *)

(** Splits a membership hypothesis over a list that is written out. *)
Ltac members H :=
  repeat (let E := fresh "E" in
          apply elem_of_cons in H as [E|H]; [try simplify_eq|]);
  try (apply elem_of_nil in H; destruct H).

(* ===================================================================== *)
(** ** Properties of [isProjectNameValid] *)
(* ===================================================================== *)

(** C10. [isProjectNameValid name] is true exactly when [name] is not the
    one-character string "."; so the empty string, "..", and names with path
    separators are all accepted. *)
Theorem isProjectNameValid_iff_not_dot :
  (forall name : string, isProjectNameValid name = true <-> name <> ".") /\
  isProjectNameValid "" = true /\
  isProjectNameValid ".." = true /\
  isProjectNameValid "../outside/dir" = true /\
  isProjectNameValid "./" = true /\
  isProjectNameValid "." = false.
Proof.
  split; [|repeat split; reflexivity].
  intros name. unfold isProjectNameValid.
  rewrite negb_true_iff, bool_decide_eq_false. reflexivity.
Qed.

(* ===================================================================== *)
(** ** Properties of [cliOptionsToServeOptions] *)
(* ===================================================================== *)

Section NormalizeFacts.

Variable K : ServeConstants.

Lemma get_empty key : get ∅ key = VUndefined.
Proof. unfold get. rewrite lookup_empty. reflexivity. Qed.

Lemma get_lookup_Some (options : gmap string CommandLineInput) key v :
  options !! key = Some v -> get options key = v.
Proof. unfold get. intros ->. reflexivity. Qed.

Lemma get_lookup_None (options : gmap string CommandLineInput) key :
  options !! key = None -> get options key = VUndefined.
Proof. unfold get. intros ->. reflexivity. Qed.

Lemma if_bool_id (b : bool) : (if b then true else false) = b.
Proof. destruct b; reflexivity. Qed.

(** C3. The empty option object normalises to the defaults: the bind-all
    address, the three default ports, livereload, proxy and devapp on, every
    other flag off, and no basicAuth, browser, browserOption or env. *)
Theorem cliOptionsToServeOptions_empty :
  cliOptionsToServeOptions K ∅ =
  {| address := BIND_ALL_ADDRESS K;
     port := DEFAULT_SERVER_PORT K;
     livereloadPort := DEFAULT_LIVERELOAD_PORT K;
     notificationPort := DEFAULT_DEV_LOGGER_PORT K;
     consolelogs := false;
     serverlogs := false;
     livereload := true;
     proxy := true;
     lab := false;
     open := false;
     browser := None;
     browserOption := None;
     basicAuth := None;
     env := None;
     devapp := true;
     externalAddressRequired := false;
     iscordovaserve := false |}.
Proof.
  unfold cliOptionsToServeOptions. rewrite !get_empty. reflexivity.
Qed.

(** C6. Normalisation is a total function of the option object: for every
    mapping it yields a configuration, and each of its nine boolean fields is
    [true] or [false], fixed by the raw value of its option alone (whatever
    that value is: missing, null, a boolean, a string or an array). *)
Theorem cliOptionsToServeOptions_total_booleans
  (options : gmap string CommandLineInput) :
  exists cfg : ServeOptions,
    cliOptionsToServeOptions K options = cfg /\
    Forall (fun '(key, field, rule) =>
              (field cfg = true \/ field cfg = false) /\
              field cfg = rule (get options key))
           boolean_fields.
Proof.
  eexists. split; [reflexivity|].
  unfold boolean_fields, cliOptionsToServeOptions.
  repeat apply Forall_cons_2; try apply Forall_nil_2;
    cbn [consolelogs serverlogs livereload proxy lab open devapp
         externalAddressRequired iscordovaserve];
    (split; [match goal with |- ?b = true \/ _ => destruct b; auto end|]);
    unfold flag_default_false, flag_boolean_or, flag_opt_out, js_Boolean;
    rewrite ?if_bool_id; try reflexivity.
  all: match goal with |- context [typeof ?v] =>
         destruct v as [| |[]| |] end; reflexivity.
Qed.

End NormalizeFacts.

(** C7 (as amended). When the [auth] option is truthy (a non-empty string,
    [true], or an array), [basicAuth] is the pair of the fixed user name
    "ionic" and [String(auth)]; when it is present but falsy ([false], the
    empty string, [null]) or absent, [basicAuth] is absent. *)
Theorem basicAuth_of_truthy_auth K (options : gmap string CommandLineInput) :
  (forall v, options !! "auth" = Some v -> truthy v = true ->
     basicAuth (cliOptionsToServeOptions K options)
     = Some ("ionic", js_String v)) /\
  (forall v, options !! "auth" = Some v -> truthy v = false ->
     basicAuth (cliOptionsToServeOptions K options) = None) /\
  (options !! "auth" = None ->
     basicAuth (cliOptionsToServeOptions K options) = None) /\
  (forall s, s <> "" -> truthy (VStr s) = true) /\
  truthy (VBool true) = true /\
  (forall items, truthy (VArr items) = true) /\
  truthy (VStr "") = false /\
  truthy (VBool false) = false /\
  truthy VNull = false /\
  truthy VUndefined = false.
Proof.
  unfold cliOptionsToServeOptions; cbn [basicAuth].
  repeat split; try reflexivity.
  - intros v Hv Ht. rewrite (get_lookup_Some _ _ _ Hv), Ht. reflexivity.
  - intros v Hv Ht. rewrite (get_lookup_Some _ _ _ Hv), Ht. reflexivity.
  - intros Hv. rewrite (get_lookup_None _ _ Hv). reflexivity.
  - intros s Hs. cbn. rewrite bool_decide_eq_false_2; auto.
Qed.

(** The same on a concrete option object: [--auth secret]. *)
Lemma basicAuth_of_truthy_auth_witness :
  basicAuth (cliOptionsToServeOptions example_constants
               {[ "auth" := VStr "secret" ]})
  = Some ("ionic", "secret").
Proof.
  apply (proj1 (basicAuth_of_truthy_auth example_constants
                  {[ "auth" := VStr "secret" ]}) (VStr "secret"));
    reflexivity.
Defined.

(** C7 as first stated does not hold: with an [auth] value that is present
    but is the empty string (or [false]), no credential pair is produced. *)
Lemma basicAuth_present_falsy_auth_counterexample :
  (({[ "auth" := VStr "" ]} : gmap string CommandLineInput) !! "auth"
     = Some (VStr "") /\
   basicAuth (cliOptionsToServeOptions example_constants
                {[ "auth" := VStr "" ]}) = None /\
   basicAuth (cliOptionsToServeOptions example_constants
                {[ "auth" := VStr "" ]})
     <> Some ("ionic", js_String (VStr ""))) /\
  (({[ "auth" := VBool false ]} : gmap string CommandLineInput) !! "auth"
     = Some (VBool false) /\
   basicAuth (cliOptionsToServeOptions example_constants
                {[ "auth" := VBool false ]}) = None /\
   basicAuth (cliOptionsToServeOptions example_constants
                {[ "auth" := VBool false ]})
     <> Some ("ionic", js_String (VBool false))).
Proof. repeat split; try reflexivity; discriminate. Qed.

(* ===================================================================== *)
(** ** Strings: concatenation and occurrence *)
(* ===================================================================== *)

Lemma app_cons c (s t : string) : String c s +:+ t = String c (s +:+ t).
Proof. reflexivity. Qed.

Lemma app_empty_l (s : string) : "" +:+ s = s.
Proof. reflexivity. Qed.

Lemma app_empty_r (s : string) : s +:+ "" = s.
Proof. induction s as [|c s IH]; [reflexivity|]. rewrite app_cons, IH. reflexivity. Qed.

Lemma app_assoc (s t u : string) : (s +:+ t) +:+ u = s +:+ t +:+ u.
Proof.
  induction s as [|c s IH]; [reflexivity|].
  rewrite !app_cons, IH. reflexivity.
Qed.

Lemma contains_refl s : contains s s.
Proof. exists "", "". rewrite app_empty_r. reflexivity. Qed.

Lemma contains_here needle rest : contains needle (needle +:+ rest).
Proof. exists "", rest. reflexivity. Qed.

Lemma contains_skip front needle hay :
  contains needle hay -> contains needle (front +:+ hay).
Proof.
  intros (b & a & ->). exists (front +:+ b), a. rewrite app_assoc. reflexivity.
Qed.

Lemma contains_keep needle hay back :
  contains needle hay -> contains needle (hay +:+ back).
Proof.
  intros (b & a & ->). exists b, (a +:+ back).
  rewrite !app_assoc. reflexivity.
Qed.

Lemma contains_trans a b c : contains a b -> contains b c -> contains a c.
Proof.
  intros (b1 & a1 & ->) (b2 & a2 & ->).
  exists (b2 +:+ b1), (a1 +:+ a2). rewrite !app_assoc. reflexivity.
Qed.

Lemma join_cons sep x y rest :
  join sep (x :: y :: rest) = x +:+ sep +:+ join sep (y :: rest).
Proof. reflexivity. Qed.

Lemma join_empty_sep x rest : join "" (x :: rest) = x +:+ join "" rest.
Proof.
  destruct rest as [|y rest]; [cbn; rewrite app_empty_r; reflexivity|].
  rewrite join_cons. reflexivity.
Qed.

Lemma contains_join sep x (l : list string) :
  x ∈ l -> contains x (join sep l).
Proof.
  induction l as [|y l IH]; [intros H; inversion H|].
  intros H. apply elem_of_cons in H as [->|H].
  - destruct l; [apply contains_refl | rewrite join_cons; apply contains_here].
  - destruct l as [|z l]; [inversion H|].
    rewrite join_cons. do 2 apply contains_skip. apply IH, H.
Qed.

(* ===================================================================== *)
(** ** The blocks of [serve] *)
(* ===================================================================== *)

Section ServeFacts.

Variable K : ServeConstants.
Variable bold : string -> string.

Lemma bind_unfold {A B} (m : Async A) (k : A -> Async B) :
  bind m k =
  match result m with
  | inl e => (trace m, inl e)
  | inr a => (trace m ++ trace (k a), result (k a))
  end.
Proof.
  destruct m as [tr [e|a]]; cbn; [reflexivity|].
  destruct (k a); reflexivity.
Qed.

(** The backend block logs at most the one backend call it makes. *)
Lemma start_backend_trace env platform serveOptions project :
  trace (start_backend bold env platform serveOptions project) =
  if bool_decide (Project.type project = "ionic1")
  then [Ionic1Serve serveOptions]
  else if bool_decide (Project.type project = "ionic-angular")
  then [IonicAngularServe
          {| platform := platform;
             target := if iscordovaserve serveOptions
                       then Some "cordova" else None;
             base := serveOptions |}]
  else [].
Proof. unfold start_backend. repeat case_bool_decide; reflexivity. Qed.

Lemma start_backend_no_publisher env platform serveOptions project e :
  e ∈ trace (start_backend bold env platform serveOptions project) ->
  service_of e = None /\ is_opn e = false.
Proof.
  rewrite start_backend_trace.
  repeat case_bool_decide; intros Hin;
    repeat (apply elem_of_cons in Hin as [->|Hin]); try (split; reflexivity);
    inversion Hin.
Qed.

(** A backend answers only for the two project types that have one. *)
Lemma start_backend_returns_type env platform serveOptions project d :
  result (start_backend bold env platform serveOptions project) = inr d ->
  (Project.type project = "ionic1" /\
   ionic1_serve env serveOptions = inr d) \/
  (Project.type project = "ionic-angular" /\
   ionic_angular_serve env
     {| platform := platform;
        target := if iscordovaserve serveOptions then Some "cordova" else None;
        base := serveOptions |} = inr d).
Proof.
  unfold start_backend. repeat case_bool_decide; cbn; intros Hd; auto.
  discriminate.
Qed.

(** The service that [announce] builds. *)
Lemma announce_trace env project serveOptions :
  trace (announce env project serveOptions) =
  let service :=
    Publisher.mk "devapp"
      (Project.name project +:+ "@" +:+ pretty (port serveOptions))
      (port serveOptions) (Some "/?devapp=true") in
  if negb (iscordovaserve serveOptions) && devapp serveOptions
  then [PublisherOn service "error"; PublisherStart service]
  else [].
Proof.
  unfold announce.
  destruct (negb (iscordovaserve serveOptions) && devapp serveOptions);
    [|reflexivity].
  cbn. destruct (publisher_start env _); reflexivity.
Qed.

(** Whatever the discovery service does, [announce] completes. *)
Lemma announce_result env project serveOptions :
  result (announce env project serveOptions) = inr tt.
Proof.
  unfold announce.
  destruct (negb (iscordovaserve serveOptions) && devapp serveOptions);
    [|reflexivity].
  cbn. destruct (publisher_start env _) as [e|[]]; reflexivity.
Qed.

Lemma open_browser_trace project d serveOptions platform :
  trace (open_browser K project d serveOptions platform) =
  if negb (bool_decide (Project.type project = "ionic-angular"))
     && open serveOptions
  then [Opn (open_url K d serveOptions platform) (browser serveOptions) false]
  else [].
Proof.
  unfold open_browser.
  destruct (negb _), (open serveOptions); reflexivity.
Qed.

Lemma open_browser_result project d serveOptions platform :
  result (open_browser K project d serveOptions platform) = inr tt.
Proof.
  unfold open_browser.
  destruct (negb _), (open serveOptions); reflexivity.
Qed.

(** [serve], one awaited call after the other. *)
Lemma serve_unfold env inputs options :
  serve K bold env inputs options =
  match hooks_fire env "watch:before" with
  | inl e => ([HooksFire "watch:before"], inl e)
  | inr _ =>
    match project_load env with
    | inl e => ([HooksFire "watch:before"; ProjectLoad], inl e)
    | inr project =>
      let backend :=
        start_backend bold env (head inputs) (cliOptionsToServeOptions K options) project in
      match result backend with
      | inl e => ([HooksFire "watch:before"; ProjectLoad] ++ trace backend,
                  inl e)
      | inr d =>
        ([HooksFire "watch:before"; ProjectLoad] ++ trace backend
           ++ trace (announce env project (cliOptionsToServeOptions K options))
           ++ [LogOk (running_message bold d (cliOptionsToServeOptions K options))]
           ++ trace (open_browser K project d (cliOptionsToServeOptions K options)
                       (head inputs)),
         inr d)
      end
    end
  end.
Proof.
  unfold serve.
  rewrite bind_unfold. cbn [await result trace fst snd].
  destruct (hooks_fire env "watch:before") as [e|[]]; [reflexivity|].
  rewrite bind_unfold. cbn [await result trace fst snd].
  destruct (project_load env) as [e|project]; [reflexivity|].
  cbn zeta. rewrite bind_unfold.
  destruct (result (start_backend _ _ _ _ _)) as [e|d]; [reflexivity|].
  rewrite !bind_unfold, announce_result.
  cbn [perform ret result trace fst snd].
  rewrite open_browser_result. cbn [perform ret result trace fst snd].
  rewrite app_nil_r. reflexivity.
Qed.

(** The same for a session whose backend answered. *)
Lemma serve_backend_returns env inputs options project d :
  backend_returns K bold env inputs options project d ->
  serve K bold env inputs options =
  ([HooksFire "watch:before"; ProjectLoad]
     ++ trace (start_backend bold env (head inputs) (cliOptionsToServeOptions K options) project)
     ++ trace (announce env project (cliOptionsToServeOptions K options))
     ++ [LogOk (running_message bold d (cliOptionsToServeOptions K options))]
     ++ trace (open_browser K project d (cliOptionsToServeOptions K options) (head inputs)),
   inr d).
Proof.
  intros (Hh & Hp & Hb). rewrite serve_unfold, Hh, Hp. cbn zeta.
  rewrite Hb. reflexivity.
Qed.

(** Where a call logged by [serve] comes from. *)
Lemma serve_trace_elem env inputs options e :
  e ∈ trace (serve K bold env inputs options) ->
  e = HooksFire "watch:before" \/
  e = ProjectLoad \/
  exists project,
    project_load env = inr project /\
    (e ∈ trace (start_backend bold env (head inputs)
                  (cliOptionsToServeOptions K options) project) \/
     exists d,
       result (start_backend bold env (head inputs)
                 (cliOptionsToServeOptions K options) project) = inr d /\
       (e ∈ trace (announce env project (cliOptionsToServeOptions K options)) \/
        e = LogOk (running_message bold d (cliOptionsToServeOptions K options)) \/
        e ∈ trace (open_browser K project d
                     (cliOptionsToServeOptions K options) (head inputs)))).
Proof.
  rewrite serve_unfold.
  destruct (hooks_fire env "watch:before") as [x|[]].
  { cbn. intros Hin. members Hin. auto. }
  destruct (project_load env) as [x|project].
  { cbn. intros Hin. members Hin; auto. }
  cbn zeta.
  destruct (result (start_backend _ _ _ _ _)) as [x|d] eqn:Hb;
    cbn [trace fst]; rewrite !elem_of_app, !elem_of_cons, ?elem_of_nil.
  - intros [[->|[->|[]]]|Hin]; auto. right; right. exists project. auto.
  - intros [[->|[->|[]]]|[Hin|[Hin|[[->|[]]|Hin]]]]; auto;
      right; right; exists project; split; eauto 10.
Qed.

End ServeFacts.

(* ===================================================================== *)
(** ** Properties of [serve] *)
(* ===================================================================== *)

Section ServeProperties.

Variable K : ServeConstants.
Variable bold : string -> string.

(** C1. When the loaded project type is neither "ionic1" nor "ionic-angular"
    (the type "custom" included), [serve] throws a [FatalException] whose
    message names the offending type, and no backend is called: the only
    calls made are the hook and the project load. *)
Theorem serve_unsupported_project_type env inputs options project :
  hooks_fire env "watch:before" = inr tt ->
  project_load env = inr project ->
  Project.type project <> "ionic1" ->
  Project.type project <> "ionic-angular" ->
  serve K bold env inputs options =
    ([HooksFire "watch:before"; ProjectLoad],
     inl (FatalException
            (unsupported_type_message bold (Project.type project)))) /\
  contains ("project type: " +:+ bold (Project.type project))
           (unsupported_type_message bold (Project.type project)) /\
  ((forall s, contains s (bold s)) ->
   contains (Project.type project)
            (unsupported_type_message bold (Project.type project))) /\
  (forall e, e ∈ trace (serve K bold env inputs options) ->
             is_backend_call e = false).
Proof.
  intros Hh Hp H1 Ha.
  assert (Hs : serve K bold env inputs options =
    ([HooksFire "watch:before"; ProjectLoad],
     inl (FatalException
            (unsupported_type_message bold (Project.type project))))).
  { rewrite serve_unfold, Hh, Hp. cbn zeta. unfold start_backend.
    rewrite !bool_decide_eq_false_2 by assumption. reflexivity. }
  split; [exact Hs|]. split; [|split].
  - unfold unsupported_type_message.
    exists "Cannot perform Ionic serve/watch for ". eexists.
    change "Cannot perform Ionic serve/watch for project type: "
      with ("Cannot perform Ionic serve/watch for " +:+ "project type: ").
    rewrite !app_assoc. reflexivity.
  - intros Hbold. unfold unsupported_type_message.
    apply contains_skip, contains_keep, Hbold.
  - rewrite Hs. intros e He. cbn in He. members He; reflexivity.
Qed.

(** C2. In every session a discovery start implies that [devapp] is on and
    [iscordovaserve] is off.  Once the backend has answered with [d], the
    discovery service is started exactly when [devapp] is on and
    [iscordovaserve] is off, and [serve] resolves with [d] whatever the
    start does: a rejected [service.start()] is caught. *)
Theorem devapp_announcer_activation env inputs options :
  ((exists service,
      PublisherStart service ∈ trace (serve K bold env inputs options)) ->
   devapp (cliOptionsToServeOptions K options) = true /\
   iscordovaserve (cliOptionsToServeOptions K options) = false) /\
  (forall project d,
     backend_returns K bold env inputs options project d ->
     ((exists service,
         PublisherStart service ∈ trace (serve K bold env inputs options)) <->
      devapp (cliOptionsToServeOptions K options) = true /\
      iscordovaserve (cliOptionsToServeOptions K options) = false) /\
     length (List.filter is_publisher_start
               (trace (serve K bold env inputs options))) =
       (if devapp (cliOptionsToServeOptions K options)
           && negb (iscordovaserve (cliOptionsToServeOptions K options))
        then 1 else 0)%nat /\
     (forall service failure,
        publisher_start env service = inl failure ->
        result (serve K bold env inputs options) = inr d) /\
     result (serve K bold env inputs options) = inr d).
Proof.
  assert (Hflags : forall project service,
            PublisherStart service
              ∈ trace (announce env project (cliOptionsToServeOptions K options)) ->
            devapp (cliOptionsToServeOptions K options) = true /\
            iscordovaserve (cliOptionsToServeOptions K options) = false).
  { intros project service. rewrite announce_trace. cbn zeta.
    destruct (iscordovaserve _), (devapp _); cbn [negb andb];
      intros Hin; members Hin; auto. }
  split.
  - intros [service Hin].
    apply serve_trace_elem in Hin
      as [Hin|[Hin|(project & _ & [Hin|(d & _ & [Hin|[Hin|Hin]])])]];
      try discriminate.
    + apply start_backend_no_publisher in Hin as [Hin _]. discriminate.
    + exact (Hflags _ _ Hin).
    + rewrite open_browser_trace in Hin.
      destruct (negb _ && open _); members Hin.
  - intros project d Hb. rewrite (serve_backend_returns _ _ _ _ _ _ _ Hb).
    cbn [trace result fst snd].
    split; [split|split; [|split; [intros; reflexivity|reflexivity]]].
    + intros [service Hin].
      rewrite !elem_of_app, !elem_of_cons, ?elem_of_nil in Hin.
      destruct Hin as [[Hin|[Hin|[]]]|[Hin|[Hin|[[Hin|[]]|Hin]]]];
        try discriminate.
      * apply start_backend_no_publisher in Hin as [Hin _]. discriminate.
      * exact (Hflags _ _ Hin).
      * rewrite open_browser_trace in Hin.
        destruct (negb _ && open _); members Hin.
    + intros [Hd Hc]. eexists.
      rewrite !elem_of_app. right. right. left.
      rewrite announce_trace, Hd, Hc. cbn.
      apply list_elem_of_further, list_elem_of_here.
    + (rewrite ?start_backend_trace, ?announce_trace, ?open_browser_trace;
      cbn zeta).
      destruct (iscordovaserve _), (devapp _); cbn [negb andb];
        repeat case_bool_decide; try destruct (open _); reflexivity.
Qed.

(** C8. Every Publisher that [serve] registers a listener on or starts is the
    one built from the loaded project and the normalised port: family
    "devapp", name [project.name + "@" + port], the serve port, and the path
    "/?devapp=true" already assigned when [start] is called. *)
Theorem devapp_service_descriptor env inputs options e service :
  e ∈ trace (serve K bold env inputs options) ->
  service_of e = Some service ->
  exists project,
    project_load env = inr project /\
    Publisher.namespace service = "devapp" /\
    Publisher.name service =
      Project.name project +:+ "@" +:+
      pretty (port (cliOptionsToServeOptions K options)) /\
    Publisher.port service = port (cliOptionsToServeOptions K options) /\
    Publisher.path service = Some "/?devapp=true".
Proof.
  intros Hin Hs. rewrite serve_unfold in Hin.
  destruct (hooks_fire env "watch:before") as [x|[]];
    [cbn in Hin; members Hin; discriminate|].
  destruct (project_load env) as [x|project];
    [cbn in Hin; members Hin; discriminate|].
  exists project. split; [reflexivity|]. cbn zeta in Hin.
  destruct (result (start_backend _ _ _ _ _)) as [x|d];
    cbn [trace fst] in Hin;
    rewrite ?start_backend_trace, ?announce_trace, ?open_browser_trace in Hin;
    cbn zeta in Hin;
    repeat case_bool_decide;
    try destruct (negb (iscordovaserve _) && devapp _);
    try destruct (negb false && open _); try destruct (negb true && open _);
    cbn in Hin; members Hin; cbn in Hs; simplify_eq; auto.
Qed.

(** C9. A session that succeeds with [d] went through exactly one backend,
    the one of the loaded project type, and [d] is the value that backend
    resolved with: nothing after the backend call changes it. *)
Theorem serve_returns_backend_details env inputs options d :
  result (serve K bold env inputs options) = inr d ->
  exists project,
    project_load env = inr project /\
    ((Project.type project = "ionic1" /\
      ionic1_serve env (cliOptionsToServeOptions K options) = inr d /\
      List.filter is_backend_call (trace (serve K bold env inputs options))
        = [Ionic1Serve (cliOptionsToServeOptions K options)]) \/
     (Project.type project = "ionic-angular" /\
      ionic_angular_serve env
        {| platform := head inputs;
           target := if iscordovaserve (cliOptionsToServeOptions K options)
                     then Some "cordova" else None;
           base := cliOptionsToServeOptions K options |} = inr d /\
      List.filter is_backend_call (trace (serve K bold env inputs options))
        = [IonicAngularServe
             {| platform := head inputs;
                target := if iscordovaserve (cliOptionsToServeOptions K options)
                          then Some "cordova" else None;
                base := cliOptionsToServeOptions K options |}])).
Proof.
  rewrite serve_unfold.
  destruct (hooks_fire env "watch:before") as [x|[]]; [discriminate|].
  destruct (project_load env) as [x|project]; [discriminate|].
  cbn zeta.
  destruct (result (start_backend _ _ _ _ _)) as [x|d'] eqn:Hb; [discriminate|].
  cbn [result snd trace fst]. intros [= ->]. exists project.
  split; [reflexivity|].
  (rewrite ?start_backend_trace, ?announce_trace, ?open_browser_trace;
      cbn zeta).
  apply start_backend_returns_type in Hb as [[Ht Hd]|[Ht Hd]]; [left|right];
    (split; [exact Ht|split; [exact Hd|]]); rewrite Ht;
    cbn [bool_decide decide_rel]; repeat case_bool_decide; try done;
    destruct (negb (iscordovaserve _) && devapp _); try destruct (open _);
    reflexivity.
Qed.

(** C5. Once the backend has answered with [d], [serve] logs one message,
    [running_message].  It has the line of the local URL
    [http://localhost:{port}]; when [d] has external addresses, an External
    line with [http://{address}:{port}] for each of them, in the order given
    and joined by ", "; no External line when there is none; and a Basic
    Auth line with user name and password when [basicAuth] is set.  On a
    terminal whose styling keeps the styled text readable, the URLs and the
    credentials occur in the message as they are. *)
Theorem running_message_reports_addresses env inputs options project d :
  backend_returns K bold env inputs options project d ->
  (LogOk (running_message bold d (cliOptionsToServeOptions K options))
     ∈ trace (serve K bold env inputs options) /\
   forall msg, LogOk msg ∈ trace (serve K bold env inputs options) ->
     msg = running_message bold d (cliOptionsToServeOptions K options)) /\
  contains
    ("Local: " +:+
     bold ("http://localhost:" +:+ pretty (ServeDetails.port d)) +:+ LF)
    (running_message bold d (cliOptionsToServeOptions K options)) /\
  (ServeDetails.externalAddresses d <> [] ->
   contains
     ("External: " +:+
      join ", "
        (map (fun a => bold ("http://" +:+ a +:+ ":" +:+
                             pretty (ServeDetails.port d)))
             (ServeDetails.externalAddresses d)) +:+ LF)
     (running_message bold d (cliOptionsToServeOptions K options))) /\
  (ServeDetails.externalAddresses d = [] ->
   running_message bold d (cliOptionsToServeOptions K options) =
   "Development server running!" +:+ LF +:+
   "Local: " +:+
   bold ("http://localhost:" +:+ pretty (ServeDetails.port d)) +:+ LF +:+
   match basicAuth (cliOptionsToServeOptions K options) with
   | Some (user, password) =>
       "Basic Auth: " +:+ bold user +:+ " / " +:+ bold password
   | None => ""
   end) /\
  (forall user password,
     basicAuth (cliOptionsToServeOptions K options) = Some (user, password) ->
     contains ("Basic Auth: " +:+ bold user +:+ " / " +:+ bold password)
       (running_message bold d (cliOptionsToServeOptions K options))) /\
  ((forall s, contains s (bold s)) ->
   contains ("http://localhost:" +:+ pretty (ServeDetails.port d))
     (running_message bold d (cliOptionsToServeOptions K options)) /\
   (forall a, a ∈ ServeDetails.externalAddresses d ->
      contains ("http://" +:+ a +:+ ":" +:+ pretty (ServeDetails.port d))
        (running_message bold d (cliOptionsToServeOptions K options))) /\
   (forall user password,
      basicAuth (cliOptionsToServeOptions K options) = Some (user, password) ->
      contains user
        (running_message bold d (cliOptionsToServeOptions K options)) /\
      contains password
        (running_message bold d (cliOptionsToServeOptions K options)))).
Proof.
  intros Hb.
  destruct d as [dport addrs]. cbn [ServeDetails.port ServeDetails.externalAddresses].
  set (so := cliOptionsToServeOptions K options).
  assert (Hext : addrs <> [] ->
    contains
      ("External: " +:+
       join ", " (map (fun a => bold ("http://" +:+ a +:+ ":" +:+ pretty dport))
                      addrs) +:+ LF)
      (running_message bold (ServeDetails.mk dport addrs) so)).
  { intros Hne. unfold running_message, fmtExternalAddress.
    cbn [ServeDetails.port ServeDetails.externalAddresses].
    rewrite bool_decide_eq_true_2 by (destruct addrs; [done|cbn; lia]).
    do 5 apply contains_skip. rewrite <- !app_assoc. apply contains_here. }
  assert (Hauth : forall user password,
    basicAuth so = Some (user, password) ->
    contains ("Basic Auth: " +:+ bold user +:+ " / " +:+ bold password)
             (running_message bold (ServeDetails.mk dport addrs) so)).
  { intros user password Ha. unfold running_message. rewrite Ha.
    do 6 apply contains_skip. apply contains_refl. }
  assert (Hlocal : contains
    ("Local: " +:+ bold ("http://localhost:" +:+ pretty dport) +:+ LF)
    (running_message bold (ServeDetails.mk dport addrs) so)).
  { unfold running_message, localAddress. cbn [ServeDetails.port].
    do 2 apply contains_skip. rewrite <- !app_assoc.
    rewrite (app_assoc "Local: "), (app_assoc ("Local: " +:+ _)).
    apply contains_here. }
  split; [split|split; [exact Hlocal|split; [exact Hext|split; [|split; [exact Hauth|]]]]].
  - rewrite (serve_backend_returns _ _ _ _ _ _ _ Hb). cbn [trace fst].
    rewrite !elem_of_app. right. right. right. left. apply list_elem_of_here.
  - intros msg. rewrite (serve_backend_returns _ _ _ _ _ _ _ Hb).
    cbn [trace fst]. (rewrite ?start_backend_trace, ?announce_trace, ?open_browser_trace;
      cbn zeta). fold so.
    repeat case_bool_decide; destruct (negb (iscordovaserve so) && devapp so);
      try destruct (open so); cbn; intros Hin; members Hin; reflexivity.
  - intros ->. unfold running_message, localAddress. reflexivity.
  - intros Hbold. split; [|split].
    + eapply contains_trans; [|exact Hlocal].
      apply contains_skip, contains_keep, Hbold.
    + intros a Ha.
      assert (Hne : addrs <> []) by (intros ->; inversion Ha).
      eapply contains_trans; [|exact (Hext Hne)].
      apply contains_skip, contains_keep.
      eapply contains_trans; [apply Hbold|].
      apply contains_join.
      apply (list_elem_of_fmap_2
               (fun a => bold ("http://" +:+ a +:+ ":" +:+ pretty dport))).
      exact Ha.
    + intros user password Ha. split.
      * eapply contains_trans; [|exact (Hauth _ _ Ha)].
        apply contains_skip, contains_keep, Hbold.
      * eapply contains_trans; [|exact (Hauth _ _ Ha)].
        do 3 apply contains_skip. apply Hbold.
Qed.

(** The URL handed to [opn], written as one concatenation. *)
Lemma open_url_concat d serveOptions platform :
  open_url K d serveOptions platform =
  localAddress d +:+
  (if lab serveOptions then IONIC_LAB_URL K else "") +:+
  default "" (browserOption serveOptions) +:+
  match platform with
  | Some p => if bool_decide (p = "") then "" else "?ionicplatform=" +:+ p
  | None => ""
  end.
Proof.
  unfold open_url, truthy_str.
  destruct (lab serveOptions), (browserOption serveOptions) as [o|],
    platform as [p|]; cbn [default negb app];
    repeat case_bool_decide; subst; cbn [negb app default];
    rewrite ?join_empty_sep; cbn [join];
    rewrite ?app_empty_r, ?app_empty_l; reflexivity.
Qed.

(** C4 (as amended). When the backend has answered with [d], [open] is on
    and the project type is not "ionic-angular", [opn] is called once, with
    the application hint [browser], without waiting, and with the URL made
    of the local URL, then [IONIC_LAB_URL] if [lab] is on, then
    [browserOption] if set, then "?ionicplatform=" and the platform if the
    first input is a non-empty string; nothing is put in between.  In every
    session [opn] is called at most once and never waits. *)
Theorem browser_opened_with_concatenated_url env inputs options :
  (forall project d,
     backend_returns K bold env inputs options project d ->
     open (cliOptionsToServeOptions K options) = true ->
     Project.type project <> "ionic-angular" ->
     List.filter is_opn (trace (serve K bold env inputs options)) =
     [Opn ("http://localhost:" +:+ pretty (ServeDetails.port d) +:+
           (if lab (cliOptionsToServeOptions K options)
            then IONIC_LAB_URL K else "") +:+
           default "" (browserOption (cliOptionsToServeOptions K options)) +:+
           match head inputs with
           | Some p =>
               if bool_decide (p = "") then "" else "?ionicplatform=" +:+ p
           | None => ""
           end)
          (browser (cliOptionsToServeOptions K options))
          false]) /\
  (length (List.filter is_opn (trace (serve K bold env inputs options))) <= 1)%nat /\
  (forall url app wait,
     Opn url app wait ∈ trace (serve K bold env inputs options) ->
     wait = false).
Proof.
  split; [|split].
  - intros project d Hb Ho Ht.
    rewrite (serve_backend_returns _ _ _ _ _ _ _ Hb). cbn [trace fst].
    (rewrite ?start_backend_trace, ?announce_trace, ?open_browser_trace;
      cbn zeta). rewrite Ho, open_url_concat.
    rewrite (bool_decide_eq_false_2 _ Ht).
    destruct Hb as (_ & _ & Hb).
    apply start_backend_returns_type in Hb as [[Hty _]|[Hty _]]; [|done].
    rewrite Hty. cbn [bool_decide decide_rel].
    rewrite bool_decide_eq_true_2 by reflexivity.
    destruct (negb (iscordovaserve _) && devapp _); reflexivity.
  - rewrite serve_unfold.
    destruct (hooks_fire env "watch:before") as [x|[]]; [cbn; lia|].
    destruct (project_load env) as [x|project]; [cbn; lia|].
    cbn zeta.
    destruct (result (start_backend _ _ _ _ _)) as [x|d];
      cbn [trace fst]; (rewrite ?start_backend_trace, ?announce_trace, ?open_browser_trace;
      cbn zeta);
      repeat case_bool_decide;
      try destruct (negb (iscordovaserve _) && devapp _);
      try destruct (open _); cbn; lia.
  - intros url app wait Hin.
    apply serve_trace_elem in Hin
      as [Hin|[Hin|(project & _ & [Hin|(d & _ & [Hin|[Hin|Hin]])])]];
      try discriminate.
    + apply start_backend_no_publisher in Hin as [_ Hin]. discriminate.
    + rewrite announce_trace in Hin. cbn zeta in Hin.
      destruct (negb (iscordovaserve _) && devapp _); members Hin.
    + rewrite open_browser_trace in Hin.
      destruct (negb _ && open _); members Hin. reflexivity.
Qed.

End ServeProperties.

(* ===================================================================== *)
(** ** The properties on concrete sessions *)
(* ===================================================================== *)

(** C1 on a project of type "custom". *)
Lemma serve_unsupported_project_type_witness :
  serve example_constants plain (example_env "custom") ["ios"] ∅ =
  ([HooksFire "watch:before"; ProjectLoad],
   inl (FatalException (unsupported_type_message plain "custom"))).
Proof.
  refine (proj1 (serve_unsupported_project_type example_constants plain
                   (example_env "custom") ["ios"] ∅
                   (Project.mk "custom" "myApp") eq_refl eq_refl _ _));
    discriminate.
Defined.

(** C2 on an ionic1 project whose discovery service fails to start. *)
Lemma devapp_announcer_activation_witness :
  publisher_start (example_env "ionic1")
    (Publisher.mk "devapp" "myApp@8100" 8100 (Some "/?devapp=true"))
    = inl (Rejected "EADDRINUSE") /\
  (exists service,
     PublisherStart service
       ∈ trace (serve example_constants plain (example_env "ionic1") [] ∅)) /\
  result (serve example_constants plain (example_env "ionic1") [] ∅)
    = inr (ServeDetails.mk 8100 ["192.168.1.5"]).
Proof.
  destruct (devapp_announcer_activation example_constants plain
              (example_env "ionic1") [] ∅) as [_ Hall].
  destruct (Hall (Project.mk "ionic1" "myApp")
                 (ServeDetails.mk 8100 ["192.168.1.5"]))
    as (Hiff & _ & _ & Hres).
  - repeat split; reflexivity.
  - split; [reflexivity|]. split; [|exact Hres].
    apply Hiff. split; reflexivity.
Defined.

(** C4 on the session of the specification's example: lab on, the browser
    option "--incognito", the platform "ios". *)
Lemma browser_opened_with_concatenated_url_witness :
  List.filter is_opn
    (trace (serve example_constants plain (example_env "ionic1") ["ios"]
              {[ "open" := VBool true; "lab" := VBool true;
                 "browseroption" := VStr "--incognito" ]})) =
  [Opn "http://localhost:8100/ionic-lab--incognito?ionicplatform=ios"
       None false].
Proof.
  refine (proj1 (browser_opened_with_concatenated_url example_constants plain
                   (example_env "ionic1") ["ios"]
                   {[ "open" := VBool true; "lab" := VBool true;
                      "browseroption" := VStr "--incognito" ]})
                (Project.mk "ionic1" "myApp")
                (ServeDetails.mk 8100 ["192.168.1.5"]) _ _ _).
  - repeat split; reflexivity.
  - reflexivity.
  - discriminate.
Defined.

(** C4 as first stated does not hold: with the empty string as first input a
    platform input is given, yet the URL handed to [opn] is the local URL
    alone, not the local URL followed by "?ionicplatform=". *)
Lemma open_url_empty_platform_counterexample :
  head [""] = Some "" /\
  open (cliOptionsToServeOptions example_constants {[ "open" := VBool true ]})
    = true /\
  List.filter is_opn
    (trace (serve example_constants plain (example_env "ionic1") [""]
              {[ "open" := VBool true ]})) =
  [Opn "http://localhost:8100" None false] /\
  "http://localhost:8100" <>
  "http://localhost:8100" +:+ "?ionicplatform=" +:+ "".
Proof. repeat split; try reflexivity. discriminate. Qed.

(** C5 on the backend answer of the specification's example. *)
Lemma running_message_reports_addresses_witness :
  contains "http://localhost:8100"
    (running_message plain (ServeDetails.mk 8100 ["192.168.1.5"])
       (cliOptionsToServeOptions example_constants ∅)) /\
  contains "http://192.168.1.5:8100"
    (running_message plain (ServeDetails.mk 8100 ["192.168.1.5"])
       (cliOptionsToServeOptions example_constants ∅)).
Proof.
  destruct (running_message_reports_addresses example_constants plain
              (example_env "ionic1") [] ∅
              (Project.mk "ionic1" "myApp")
              (ServeDetails.mk 8100 ["192.168.1.5"]))
    as (_ & _ & _ & _ & _ & Hplain).
  - repeat split; reflexivity.
  - destruct (Hplain contains_refl) as (Hlocal & Hext & _).
    split; [exact Hlocal|].
    apply (Hext "192.168.1.5"). apply list_elem_of_here.
Defined.

(** C8 on an ionic1 project named "myApp" served on port 8100. *)
Lemma devapp_service_descriptor_witness :
  exists project,
    project_load (example_env "ionic1") = inr project /\
    Publisher.namespace
      (Publisher.mk "devapp" "myApp@8100" 8100 (Some "/?devapp=true"))
      = "devapp" /\
    Publisher.name
      (Publisher.mk "devapp" "myApp@8100" 8100 (Some "/?devapp=true"))
      = Project.name project +:+ "@" +:+
        pretty (port (cliOptionsToServeOptions example_constants ∅)) /\
    Publisher.port
      (Publisher.mk "devapp" "myApp@8100" 8100 (Some "/?devapp=true"))
      = port (cliOptionsToServeOptions example_constants ∅) /\
    Publisher.path
      (Publisher.mk "devapp" "myApp@8100" 8100 (Some "/?devapp=true"))
      = Some "/?devapp=true".
Proof.
  apply (devapp_service_descriptor example_constants plain
           (example_env "ionic1") [] ∅
           (PublisherStart
              (Publisher.mk "devapp" "myApp@8100" 8100 (Some "/?devapp=true")))).
  - do 4 apply list_elem_of_further. apply list_elem_of_here.
  - reflexivity.
Defined.

(** C9 on an ionic-angular project. *)
Lemma serve_returns_backend_details_witness :
  exists project,
    project_load (example_env "ionic-angular") = inr project /\
    Project.type project = "ionic-angular" /\
    ionic_angular_serve (example_env "ionic-angular")
      {| platform := Some "android"; target := None;
         base := cliOptionsToServeOptions example_constants ∅ |}
    = inr (ServeDetails.mk 8100 ["192.168.1.5"]).
Proof.
  destruct (serve_returns_backend_details example_constants plain
              (example_env "ionic-angular") ["android"] ∅
              (ServeDetails.mk 8100 ["192.168.1.5"]))
    as (project & Hp & [(Ht & _)|(Ht & Hd & _)]).
  - vm_compute. reflexivity.
  - exfalso. injection Hp as <-. discriminate Ht.
  - exists project. split; [exact Hp|]. split; [exact Ht|exact Hd].
Defined.

(* ===================================================================== *)
(** ** Further properties of commands/serve.ts *)
(* ===================================================================== *)

Section ServeFurther.

Variable K : ServeConstants.
Variable bold : string -> string.

(** X1. Normalisation reads the seventeen options of [serve_option_names]
    and nothing else: two option objects that agree on them (a missing key
    counting as [undefined]) give the same configuration. *)
Theorem cliOptionsToServeOptions_ignores_other_options
  (options1 options2 : gmap string CommandLineInput) :
  (forall key, key ∈ serve_option_names ->
               get options1 key = get options2 key) ->
  cliOptionsToServeOptions K options1 = cliOptionsToServeOptions K options2.
Proof.
  intros Hsame. unfold cliOptionsToServeOptions.
  repeat match goal with
         | |- context [get options1 ?key] =>
             rewrite (Hsame key)
               by (unfold serve_option_names;
                   repeat first [apply list_elem_of_here
                                |apply list_elem_of_further])
         end.
  reflexivity.
Qed.

(** X2. A rejection of the hook or of the project loader is the rejection
    of [serve], unchanged, and ends the session on the spot: after a failed
    hook nothing is called, after a failed load no backend is. *)
Theorem serve_rejects_before_backend env inputs options :
  (forall e, hooks_fire env "watch:before" = inl e ->
     serve K bold env inputs options = ([HooksFire "watch:before"], inl e)) /\
  (forall e, hooks_fire env "watch:before" = inr tt ->
     project_load env = inl e ->
     serve K bold env inputs options =
       ([HooksFire "watch:before"; ProjectLoad], inl e)).
Proof.
  split.
  - intros e Hh. rewrite serve_unfold, Hh. reflexivity.
  - intros e Hh Hp. rewrite serve_unfold, Hh, Hp. reflexivity.
Qed.

(** X3. A rejection of the backend is the rejection of [serve], unchanged:
    the backend call is the last call of the session, so nothing is
    announced, logged or opened. *)
Theorem serve_backend_rejection_propagates env inputs options project e :
  hooks_fire env "watch:before" = inr tt ->
  project_load env = inr project ->
  (Project.type project = "ionic1" ->
   ionic1_serve env (cliOptionsToServeOptions K options) = inl e ->
   serve K bold env inputs options =
     ([HooksFire "watch:before"; ProjectLoad;
       Ionic1Serve (cliOptionsToServeOptions K options)], inl e)) /\
  (Project.type project = "ionic-angular" ->
   ionic_angular_serve env
     {| platform := head inputs;
        target := if iscordovaserve (cliOptionsToServeOptions K options)
                  then Some "cordova" else None;
        base := cliOptionsToServeOptions K options |} = inl e ->
   serve K bold env inputs options =
     ([HooksFire "watch:before"; ProjectLoad;
       IonicAngularServe
         {| platform := head inputs;
            target := if iscordovaserve (cliOptionsToServeOptions K options)
                      then Some "cordova" else None;
            base := cliOptionsToServeOptions K options |}], inl e)).
Proof.
  intros Hh Hp. split; intros Ht He;
    rewrite serve_unfold, Hh, Hp; cbn zeta;
    unfold start_backend; rewrite Ht; cbn [bool_decide decide_rel];
    repeat case_bool_decide; try done;
    cbn [await result snd trace fst]; rewrite He; reflexivity.
Qed.

(** X4. In every session the calls are made in the order of the source:
    hook, project load, backend, listener registration, discovery start,
    log, browser; no call is made twice. *)
Theorem serve_calls_in_order env inputs options :
  StronglySorted lt (map phase (trace (serve K bold env inputs options))).
Proof.
  rewrite serve_unfold.
  destruct (hooks_fire env "watch:before") as [x|[]];
    [cbn; repeat constructor|].
  destruct (project_load env) as [x|project];
    [cbn; repeat constructor; lia|].
  cbn zeta.
  destruct (result (start_backend _ _ _ _ _)) as [x|d];
    cbn [trace fst];
    rewrite ?start_backend_trace, ?announce_trace, ?open_browser_trace;
    cbn zeta; repeat case_bool_decide;
    try destruct (negb (iscordovaserve _) && devapp _);
    try destruct (open _); cbn;
    repeat (constructor; try lia).
Qed.

(** X5. For a project of type "ionic-angular" [serve] never opens the
    browser itself, whatever [open] says; the backend is handed the first
    input as [platform], the target "cordova" exactly when [iscordovaserve]
    is on, and the normalised options. *)
Theorem serve_ionic_angular_leaves_browser_to_backend
  env inputs options project :
  project_load env = inr project ->
  Project.type project = "ionic-angular" ->
  List.filter is_opn (trace (serve K bold env inputs options)) = [] /\
  (hooks_fire env "watch:before" = inr tt ->
   List.filter is_backend_call (trace (serve K bold env inputs options)) =
   [IonicAngularServe
      {| platform := head inputs;
         target := if iscordovaserve (cliOptionsToServeOptions K options)
                   then Some "cordova" else None;
         base := cliOptionsToServeOptions K options |}]).
Proof.
  intros Hp Ht. rewrite serve_unfold, Hp. cbn zeta.
  split; [|intros Hh; rewrite Hh];
    try (destruct (hooks_fire env "watch:before") as [x|[]];
         [reflexivity|]);
    destruct (result (start_backend _ _ _ _ _)) as [y|d];
    cbn [trace fst];
    rewrite ?start_backend_trace, ?announce_trace, ?open_browser_trace;
    cbn zeta; rewrite Ht; cbn [bool_decide decide_rel];
    repeat case_bool_decide; try done;
    try destruct (negb (iscordovaserve _) && devapp _);
    try destruct (open _); reflexivity.
Qed.

(** X6. The browser is opened only when [open] is on and the project type
    is not "ionic-angular", with the [browser] option as application, and
    on a URL that starts with the local address of the port the backend
    reported. *)
Theorem serve_opens_reported_port env inputs options url app wait :
  Opn url app wait ∈ trace (serve K bold env inputs options) ->
  exists project d suffix,
    project_load env = inr project /\
    result (start_backend bold env (head inputs)
              (cliOptionsToServeOptions K options) project) = inr d /\
    url = "http://localhost:" +:+ pretty (ServeDetails.port d) +:+ suffix /\
    app = browser (cliOptionsToServeOptions K options) /\
    open (cliOptionsToServeOptions K options) = true /\
    Project.type project <> "ionic-angular".
Proof.
  intros Hin.
  apply serve_trace_elem in Hin
    as [Hin|[Hin|(project & Hp & [Hin|(d & Hd & [Hin|[Hin|Hin]])])]];
    try discriminate.
  - apply start_backend_no_publisher in Hin as [_ Hin]. discriminate.
  - rewrite announce_trace in Hin. cbn zeta in Hin.
    destruct (negb (iscordovaserve _) && devapp _); members Hin.
  - rewrite open_browser_trace in Hin.
    case_bool_decide as Ht; cbn [negb andb] in Hin; [members Hin|].
    destruct (open _) eqn:Ho; members Hin.
    exists project, d. eexists. repeat split; try done.
    rewrite open_url_concat. unfold localAddress.
    rewrite (app_assoc "http://localhost:"). reflexivity.
Qed.

End ServeFurther.

(* ===================================================================== *)
(** ** Properties of lib/start.ts: the directory check and the template text *)
(* ===================================================================== *)

Lemma indexOf_from_spec (l : list string) x i :
  0 <= i ->
  (indexOf_from l x i = -1 /\ x ∉ l) \/ (i <= indexOf_from l x i /\ x ∈ l).
Proof.
  revert i. induction l as [|y l IH]; intros i Hi; cbn.
  - left. split; [reflexivity|]. apply not_elem_of_nil.
  - case_bool_decide as Hy.
    + right. subst. split; [lia|apply list_elem_of_here].
    + destruct (IH (i + 1)) as [[-> Hn]|[Hle Hin]]; [lia| |].
      * left. split; [reflexivity|].
        rewrite elem_of_cons. intros [->|?]; [apply Hy; reflexivity|done].
      * right. split; [lia|apply list_elem_of_further, Hin].
Qed.

Lemma indexOf_found (l : list string) x : indexOf l x >= 0 <-> x ∈ l.
Proof.
  unfold indexOf. destruct (indexOf_from_spec l x 0) as [[-> Hn]|[Hle Hin]];
    [lia| |]; split; intros; try done; lia.
Qed.

(** X7. [isSafeToCreateProjectIn] lists the directory once and answers
    [true] exactly when every entry is one of the seven names of
    [validFiles], compared as is; an empty directory is safe, and a failed
    listing is the failure of the call. *)
Theorem isSafeToCreateProjectIn_only_valid_files fs root :
  (forall entries, fsReadDir fs root = inr entries ->
     exists safe,
       isSafeToCreateProjectIn fs root = ([FsReadDir root], inr safe) /\
       (safe = true <-> forall file, file ∈ entries -> file ∈ validFiles) /\
       (entries = [] -> safe = true)) /\
  (forall e, fsReadDir fs root = inl e ->
     isSafeToCreateProjectIn fs root = ([FsReadDir root], inl e)).
Proof.
  unfold isSafeToCreateProjectIn. split.
  - intros entries ->. eexists. split; [reflexivity|]. split.
    + rewrite forallb_forall. split.
      * intros Hall file Hin. apply indexOf_found.
        apply list_elem_of_In, Hall, bool_decide_eq_true in Hin. exact Hin.
      * intros Hall file Hin. apply bool_decide_eq_true, indexOf_found.
        apply Hall, list_elem_of_In, Hin.
    + intros ->. reflexivity.
  - intros e ->. reflexivity.
Qed.






Section StarterTextFacts.

Variables green dim bold : string -> string.




Lemma contains_sep_join sep line (lines : list string) :
  line ∈ lines -> contains (sep +:+ line) (sep +:+ join sep lines).
Proof.
  induction lines as [|x l IH]; [intros Hin; inversion Hin|].
  intros Hin. apply elem_of_cons in Hin as [->|Hin].
  - destruct l as [|y l]; [apply contains_refl|].
    rewrite join_cons, <- app_assoc. apply contains_here.
  - destruct l as [|y l]; [inversion Hin|].
    rewrite join_cons. do 2 apply contains_skip. apply IH, Hin.
Qed.

(** X10. [getStarterTemplateText] fails exactly as the list of lines does;
    otherwise its text holds the bold header and every line of the list,
    each at the start of a line of its own behind six spaces. *)
Theorem getStarterTemplateText_lists_every_line templates :
  (forall e, getStarterTemplateTextList green dim bold templates = inl e ->
     getStarterTemplateText green dim bold templates = inl e) /\
  (forall lines,
     getStarterTemplateTextList green dim bold templates = inr lines ->
     exists text,
       getStarterTemplateText green dim bold templates = inr text /\
       contains (LF +:+ "    " +:+ bold "Ionic Starter templates" +:+ LF) text /\
       forall line, line ∈ lines ->
         contains (LF +:+ "      " +:+ line) text).
Proof.
  unfold getStarterTemplateText. split.
  - intros e ->. reflexivity.
  - intros lines ->. eexists. split; [reflexivity|]. split.
    + exists "". eexists. rewrite app_empty_l, !app_assoc. reflexivity.
    + intros line Hin.
      do 3 apply contains_skip.
      rewrite <- (app_assoc LF "      " line).
      rewrite <- (app_assoc LF "      " (join _ lines +:+ _)).
      rewrite <- (app_assoc (LF +:+ "      ") (join _ lines) _).
      apply contains_keep, contains_sep_join, Hin.
Qed.

End StarterTextFacts.

(* ===================================================================== *)
(** ** Properties of lib/start.ts: package.json and ionic.config.json *)
(* ===================================================================== *)

Section PackageJsonFacts.

Variable path_resolve : string -> string -> string.
Variable merge :
  gmap string JsonValue -> gmap string JsonValue -> gmap string JsonValue.

(** X11. When package.json cannot be read, [patchPackageJsonForCli] stops
    after that one call: the patch file is not read and nothing is written
    or removed.  For both rejections of [fsReadJsonFile] the error says that
    package.json "is not valid JSON."; any other thrown value is passed
    on. *)
Theorem patchPackageJsonForCli_unreadable_package
  fs env appName starterType pathToProject e :
  fsReadJsonFile fs (path_resolve pathToProject "package.json") = inl e ->
  fs_trace (patchPackageJsonForCli path_resolve merge fs env appName
              starterType pathToProject)
    = [FsReadJsonFile (path_resolve pathToProject "package.json")] /\
  fs_result (patchPackageJsonForCli path_resolve merge fs env appName
               starterType pathToProject)
    = inl match e with
          | ERROR_FILE_NOT_FOUND | ERROR_FILE_INVALID_JSON =>
              Error (path_resolve pathToProject "package.json"
                     +:+ " is not valid JSON.")
          | _ => e
          end.
Proof.
  intros He. unfold patchPackageJsonForCli. rewrite He.
  destruct e; split; reflexivity.
Qed.

(** X12. When package.json is read and the patch file is not, nothing is
    written or removed.  A patch file that is not found is no error: the
    call resolves.  A patch file that is not valid JSON gives the error
    naming the patch file; any other thrown value is passed on. *)
Theorem patchPackageJsonForCli_unreadable_patch
  fs env appName starterType pathToProject pkg e :
  fsReadJsonFile fs (path_resolve pathToProject "package.json") = inr pkg ->
  fsReadJsonFile fs (path_resolve pathToProject "patch.package.json")
    = inl e ->
  fs_trace (patchPackageJsonForCli path_resolve merge fs env appName
              starterType pathToProject)
    = [FsReadJsonFile (path_resolve pathToProject "package.json");
       FsReadJsonFile (path_resolve pathToProject "patch.package.json")] /\
  fs_result (patchPackageJsonForCli path_resolve merge fs env appName
               starterType pathToProject)
    = match e with
      | ERROR_FILE_NOT_FOUND => inr tt
      | ERROR_FILE_INVALID_JSON =>
          inl (Error (path_resolve pathToProject "patch.package.json"
                      +:+ " is not valid JSON."))
      | _ => inl e
      end.
Proof.
  intros Hpkg Hpatch. unfold patchPackageJsonForCli.
  rewrite Hpkg. cbn. rewrite Hpatch. destruct e; split; reflexivity.
Qed.

(** X13. When both files are read and the write succeeds,
    [patchPackageJsonForCli] makes four calls in this order: it reads
    package.json, reads the patch, writes [merge pkg patch] to package.json
    as utf8, and removes the patch file; then it resolves. *)
Theorem patchPackageJsonForCli_applies_patch
  fs env appName starterType pathToProject pkg patch :
  fsReadJsonFile fs (path_resolve pathToProject "package.json") = inr pkg ->
  fsReadJsonFile fs (path_resolve pathToProject "patch.package.json")
    = inr patch ->
  fsWriteJsonFile fs (path_resolve pathToProject "package.json")
    (merge pkg patch) = inr tt ->
  patchPackageJsonForCli path_resolve merge fs env appName starterType
    pathToProject
  = ([FsReadJsonFile (path_resolve pathToProject "package.json");
      FsReadJsonFile (path_resolve pathToProject "patch.package.json");
      FsWriteJsonFile (path_resolve pathToProject "package.json")
        (merge pkg patch) "utf8";
      FsUnlink (path_resolve pathToProject "patch.package.json")],
     inr tt).
Proof.
  intros Hpkg Hpatch Hwrite. unfold patchPackageJsonForCli.
  rewrite Hpkg. cbn. rewrite Hpatch. cbn. rewrite Hwrite. reflexivity.
Qed.

(** X14. Whatever the file system answers, [patchPackageJsonForCli] writes
    only to package.json, only the merge of the two documents it has read,
    and at most once; it removes only the patch file, and only after that
    write has succeeded. *)
Theorem patchPackageJsonForCli_writes_then_unlinks
  fs env appName starterType pathToProject :
  (forall path data encoding,
     FsWriteJsonFile path data encoding
       ∈ fs_trace (patchPackageJsonForCli path_resolve merge fs env appName
                     starterType pathToProject) ->
     path = path_resolve pathToProject "package.json" /\
     encoding = "utf8" /\
     exists pkg patch,
       fsReadJsonFile fs (path_resolve pathToProject "package.json")
         = inr pkg /\
       fsReadJsonFile fs (path_resolve pathToProject "patch.package.json")
         = inr patch /\
       data = merge pkg patch) /\
  (forall path,
     FsUnlink path
       ∈ fs_trace (patchPackageJsonForCli path_resolve merge fs env appName
                     starterType pathToProject) ->
     path = path_resolve pathToProject "patch.package.json" /\
     exists pkg patch,
       fsReadJsonFile fs (path_resolve pathToProject "package.json")
         = inr pkg /\
       fsReadJsonFile fs (path_resolve pathToProject "patch.package.json")
         = inr patch /\
       fsWriteJsonFile fs (path_resolve pathToProject "package.json")
         (merge pkg patch) = inr tt) /\
  (length (List.filter is_write
             (fs_trace (patchPackageJsonForCli path_resolve merge fs env
                          appName starterType pathToProject))) <= 1)%nat /\
  (length (List.filter is_unlink
             (fs_trace (patchPackageJsonForCli path_resolve merge fs env
                          appName starterType pathToProject))) <= 1)%nat.
Proof.
  unfold patchPackageJsonForCli.
  destruct (fsReadJsonFile fs (path_resolve pathToProject "package.json"))
    as [e|pkg] eqn:Hpkg.
  { destruct e; cbn; repeat split; try lia; intros; members H. }
  cbn.
  destruct (fsReadJsonFile fs
              (path_resolve pathToProject "patch.package.json"))
    as [e|patch] eqn:Hpatch.
  { destruct e; cbn; repeat split; try lia; intros; members H. }
  cbn.
  destruct (fsWriteJsonFile fs (path_resolve pathToProject "package.json")
              (merge pkg patch)) as [e|[]] eqn:Hwrite.
  { destruct e; cbn; repeat split; try lia; intros; members H; eauto. }
  cbn. repeat split; try lia; intros; members H; eauto.
Qed.

(** X15. When package.json is read, [updatePackageJsonForCli] writes it
    back once, to the same path, with [name] set to the application name,
    [version] to "0.0.1" and [description] to "An Ionic project"; every
    other property is written as it was read.  The call resolves when the
    write does. *)
Theorem updatePackageJsonForCli_sets_three_fields
  fs env appName starterType pathToProject json :
  fsReadJsonFile fs (path_resolve pathToProject "package.json") = inr json ->
  exists written,
    fs_trace (updatePackageJsonForCli path_resolve fs env appName starterType
                pathToProject)
      = [FsReadJsonFile (path_resolve pathToProject "package.json");
         FsWriteJsonFile (path_resolve pathToProject "package.json")
           written "utf8"] /\
    written !! "name" = Some (JStr appName) /\
    written !! "version" = Some (JStr "0.0.1") /\
    written !! "description" = Some (JStr "An Ionic project") /\
    (forall key, key <> "name" -> key <> "version" -> key <> "description" ->
       written !! key = json !! key) /\
    (fsWriteJsonFile fs (path_resolve pathToProject "package.json") written
       = inr tt ->
     fs_result (updatePackageJsonForCli path_resolve fs env appName
                  starterType pathToProject) = inr tt).
Proof.
  intros Hjson. unfold updatePackageJsonForCli. rewrite Hjson. cbn.
  eexists. split; [|split; [|split; [|split; [|split]]]].
  - destruct (fsWriteJsonFile _ _ _) as [[]|[]]; reflexivity.
  - rewrite !lookup_insert_ne by done. apply lookup_insert_eq.
  - rewrite lookup_insert_ne by done. apply lookup_insert_eq.
  - apply lookup_insert_eq.
  - intros key Hn Hv Hd. rewrite !lookup_insert_ne by done. reflexivity.
  - intros ->. reflexivity.
Qed.

(** X16. When package.json cannot be read, [updatePackageJsonForCli] writes
    nothing.  A missing file gives the error "... not found", invalid JSON
    the error "... is not valid JSON.", both naming package.json; any other
    thrown value is passed on. *)
Theorem updatePackageJsonForCli_unreadable_package
  fs env appName starterType pathToProject e :
  fsReadJsonFile fs (path_resolve pathToProject "package.json") = inl e ->
  updatePackageJsonForCli path_resolve fs env appName starterType
    pathToProject
  = ([FsReadJsonFile (path_resolve pathToProject "package.json")],
     inl match e with
         | ERROR_FILE_NOT_FOUND =>
             Error (path_resolve pathToProject "package.json"
                    +:+ " not found")
         | ERROR_FILE_INVALID_JSON =>
             Error (path_resolve pathToProject "package.json"
                    +:+ " is not valid JSON.")
         | _ => e
         end).
Proof.
  intros He. unfold updatePackageJsonForCli. rewrite He.
  destruct e; reflexivity.
Qed.

(** X17. [createProjectConfig] makes one call: it writes to
    ionic.config.json an object with exactly the properties [name] (the
    application name), [app_id] (empty) and [type] (the id of the starter
    type), and ends as that write ends.  For each entry of [STARTER_TYPES]
    the type written is one that [serve] has a backend for: on a project of
    that type [serve] calls exactly one backend. *)
Theorem createProjectConfig_type_has_backend
  fs appName starterType pathToProject :
  exists config,
    createProjectConfig path_resolve fs appName starterType pathToProject
      = ([FsWriteJsonFile (path_resolve pathToProject "ionic.config.json")
            config "utf8"],
         fsWriteJsonFile fs (path_resolve pathToProject "ionic.config.json")
           config) /\
    config !! "name" = Some (JStr appName) /\
    config !! "app_id" = Some (JStr "") /\
    config !! "type" = Some (JStr (StarterTemplateType.id starterType)) /\
    (forall key, key <> "name" -> key <> "app_id" -> key <> "type" ->
       config !! key = None) /\
    (starterType ∈ STARTER_TYPES ->
     forall K bold env inputs options project,
       hooks_fire env "watch:before" = inr tt ->
       project_load env = inr project ->
       Project.type project = StarterTemplateType.id starterType ->
       length (List.filter is_backend_call
                 (trace (serve K bold env inputs options))) = 1%nat).
Proof.
  unfold createProjectConfig. eexists. split; [reflexivity|].
  split; [|split; [|split; [|split]]].
  - apply lookup_insert_eq.
  - rewrite lookup_insert_ne by done. apply lookup_insert_eq.
  - rewrite !lookup_insert_ne by done. apply lookup_singleton_eq.
  - intros key Hn Ha Ht. rewrite !lookup_insert_ne by done.
    apply lookup_singleton_ne. done.
  - intros Hst K bold env inputs options project Hh Hp Hty.
    rewrite serve_unfold, Hh, Hp. cbn zeta.
    unfold STARTER_TYPES in Hst. members Hst; cbn in Hty;
      destruct (result (start_backend _ _ _ _ _)) as [x|d];
      cbn [trace fst];
      rewrite ?start_backend_trace, ?announce_trace, ?open_browser_trace;
      cbn zeta; rewrite Hty; cbn [bool_decide decide_rel];
      repeat case_bool_decide; try done;
      try destruct (negb (iscordovaserve _) && devapp _);
      try destruct (open _); reflexivity.
Qed.

End PackageJsonFacts.

(* ===================================================================== *)
(** ** The further properties on concrete inputs *)
(* ===================================================================== *)

(** X1 on an option object with an option that [serve] does not know. *)
Lemma cliOptionsToServeOptions_ignores_other_options_witness :
  cliOptionsToServeOptions example_constants {[ "verbose" := VBool true ]}
  = cliOptionsToServeOptions example_constants ∅.
Proof.
  apply cliOptionsToServeOptions_ignores_other_options.
  intros key Hin. unfold serve_option_names in Hin.
  members Hin; reflexivity.
Defined.

(** X2 on a hook that rejects. *)
Lemma serve_rejects_before_backend_witness :
  serve example_constants plain example_env_failing_hook [] ∅
  = ([HooksFire "watch:before"], inl (Rejected "hook failed")).
Proof.
  apply (proj1 (serve_rejects_before_backend example_constants plain
                  example_env_failing_hook [] ∅)).
  reflexivity.
Defined.

(** X3 on an ionic1 backend that cannot listen. *)
Lemma serve_backend_rejection_propagates_witness :
  serve example_constants plain example_env_failing_backend [] ∅
  = ([HooksFire "watch:before"; ProjectLoad;
      Ionic1Serve (cliOptionsToServeOptions example_constants ∅)],
     inl (Rejected "EADDRINUSE")).
Proof.
  apply (proj1 (serve_backend_rejection_propagates example_constants plain
                  example_env_failing_backend [] ∅
                  (Project.mk "ionic1" "myApp") (Rejected "EADDRINUSE")
                  eq_refl eq_refl));
    reflexivity.
Defined.

(** X5 on an ionic-angular project served with [--open]. *)
Lemma serve_ionic_angular_leaves_browser_to_backend_witness :
  List.filter is_opn
    (trace (serve example_constants plain (example_env "ionic-angular")
              ["ios"] {[ "open" := VBool true ]})) = [].
Proof.
  apply (proj1 (serve_ionic_angular_leaves_browser_to_backend
                  example_constants plain (example_env "ionic-angular")
                  ["ios"] {[ "open" := VBool true ]}
                  (Project.mk "ionic-angular" "myApp") eq_refl eq_refl)).
Defined.

(** X6 on an ionic1 project served with [--open]. *)
Lemma serve_opens_reported_port_witness :
  exists project d suffix,
    project_load (example_env "ionic1") = inr project /\
    result (start_backend plain (example_env "ionic1") (head [])
              (cliOptionsToServeOptions example_constants
                 {[ "open" := VBool true ]}) project) = inr d /\
    "http://localhost:8100"
      = "http://localhost:" +:+ pretty (ServeDetails.port d) +:+ suffix /\
    None = browser (cliOptionsToServeOptions example_constants
                      {[ "open" := VBool true ]}) /\
    open (cliOptionsToServeOptions example_constants
            {[ "open" := VBool true ]}) = true /\
    Project.type project <> "ionic-angular".
Proof.
  apply (serve_opens_reported_port example_constants plain
           (example_env "ionic1") [] {[ "open" := VBool true ]}
           "http://localhost:8100" None false).
  vm_compute. do 6 apply list_elem_of_further. apply list_elem_of_here.
Defined.

(** X7 on a directory that holds .git and README.md. *)
Lemma isSafeToCreateProjectIn_only_valid_files_witness :
  isSafeToCreateProjectIn example_fs "/app" = ([FsReadDir "/app"], inr true).
Proof.
  destruct (proj1 (isSafeToCreateProjectIn_only_valid_files example_fs "/app")
              [".git"; "README.md"] eq_refl)
    as (safe & Hrun & Hsafe & _).
  rewrite Hrun. f_equal. f_equal. apply Hsafe.
  intros file Hin. members Hin; unfold validFiles.
  - do 2 apply list_elem_of_further. apply list_elem_of_here.
  - do 5 apply list_elem_of_further. apply list_elem_of_here.
Defined.



(** X10 on the two example templates. *)
Lemma getStarterTemplateText_lists_every_line_witness :
  exists text,
    getStarterTemplateText plain plain plain example_templates = inr text /\
    contains (LF +:+ "      " +:+
              "blank .............. ionic1 A blank starter project for Ionic")
             text.
Proof.
  destruct (proj2 (getStarterTemplateText_lists_every_line plain plain plain
                     example_templates)
              [ "tabs ............... ionic-angular A starting project with a simple tabbed interface";
                "blank .............. ionic1 A blank starter project for Ionic" ]
              eq_refl) as (text & Htext & _ & Hlines).
  exists text. split; [exact Htext|].
  apply Hlines. apply list_elem_of_further, list_elem_of_here.
Defined.

(** X11 on a directory without package.json. *)
Lemma patchPackageJsonForCli_unreadable_package_witness :
  fs_result (patchPackageJsonForCli example_resolve example_merge
               example_fs_missing (example_env "ionic1") "myApp"
               example_starter_type "/app")
  = inl (Error "/app/package.json is not valid JSON.").
Proof.
  apply (proj2 (patchPackageJsonForCli_unreadable_package example_resolve
                  example_merge example_fs_missing (example_env "ionic1")
                  "myApp" example_starter_type "/app" ERROR_FILE_NOT_FOUND
                  eq_refl)).
Defined.

(** X12 on a directory with package.json and no patch file. *)
Lemma patchPackageJsonForCli_unreadable_patch_witness :
  fs_result (patchPackageJsonForCli example_resolve example_merge
               example_fs (example_env "ionic1") "myApp"
               example_starter_type "/app")
  = inr tt.
Proof.
  apply (proj2 (patchPackageJsonForCli_unreadable_patch example_resolve
                  example_merge example_fs (example_env "ionic1")
                  "myApp" example_starter_type "/app"
                  {[ "name" := JStr "base"; "license" := JStr "MIT" ]}
                  ERROR_FILE_NOT_FOUND eq_refl eq_refl)).
Defined.

(** X13 on a directory with package.json and a patch file. *)
Lemma patchPackageJsonForCli_applies_patch_witness :
  patchPackageJsonForCli example_resolve example_merge example_fs_patch
    (example_env "ionic1") "myApp" example_starter_type "/app"
  = ([FsReadJsonFile "/app/package.json";
      FsReadJsonFile "/app/patch.package.json";
      FsWriteJsonFile "/app/package.json"
        (example_merge {[ "name" := JStr "base"; "license" := JStr "MIT" ]}
                       {[ "private" := JBool true ]}) "utf8";
      FsUnlink "/app/patch.package.json"],
     inr tt).
Proof.
  apply (patchPackageJsonForCli_applies_patch example_resolve example_merge
           example_fs_patch (example_env "ionic1") "myApp"
           example_starter_type "/app"
           {[ "name" := JStr "base"; "license" := JStr "MIT" ]}
           {[ "private" := JBool true ]} eq_refl eq_refl eq_refl).
Defined.

(** X15 on a package.json with a name and a license. *)
Lemma updatePackageJsonForCli_sets_three_fields_witness :
  exists written,
    fs_trace (updatePackageJsonForCli example_resolve example_fs
                (example_env "ionic1") "myApp" example_starter_type "/app")
      = [FsReadJsonFile "/app/package.json";
         FsWriteJsonFile "/app/package.json" written "utf8"] /\
    written !! "name" = Some (JStr "myApp") /\
    written !! "license" = Some (JStr "MIT").
Proof.
  destruct (updatePackageJsonForCli_sets_three_fields example_resolve
              example_fs (example_env "ionic1") "myApp" example_starter_type
              "/app" {[ "name" := JStr "base"; "license" := JStr "MIT" ]}
              eq_refl)
    as (written & Htrace & Hname & _ & _ & Hrest & _).
  exists written. split; [exact Htrace|]. split; [exact Hname|].
  rewrite Hrest by done. reflexivity.
Defined.

(** X16 on a directory without package.json. *)
Lemma updatePackageJsonForCli_unreadable_package_witness :
  updatePackageJsonForCli example_resolve example_fs_missing
    (example_env "ionic1") "myApp" example_starter_type "/app"
  = ([FsReadJsonFile "/app/package.json"],
     inl (Error "/app/package.json not found")).
Proof.
  apply (updatePackageJsonForCli_unreadable_package example_resolve
           example_fs_missing (example_env "ionic1") "myApp"
           example_starter_type "/app" ERROR_FILE_NOT_FOUND eq_refl).
Defined.
